(** * geoip_server: the request handler of [geoip/geoip_ph.py]

    A shallow embedding of [GeoServer] (Python 2): the line protocol of
    [process], the health check [checkConnection] and the reply shaping of
    [_return] / [_error], together with the parts of the Python runtime the
    handler leans on ([str.strip], [str.split], [str.upper], [str.replace]
    and [json.dumps]).

    Python 2 [str] values are byte strings: they are modelled by [string],
    one [ascii] per byte.

    What lies outside the file [geoip_ph.py] is taken as follows.
    - The lookup backend ([base.GeoIP]) is a parameter: any pair of
      functions from a query to an outcome.
    - The metrics sink ([statsd]) and the logger are write-only: a call to
      them is recorded as an event and never raises; a timer of the sink is
      a plain object, hence true in [if timer:].
    - An exception is kept by what the handler can do with it: whether
      [except Exception] catches it, and what [str(e)] does, since the
      [except] clauses call it and it can raise in its turn (a unicode
      message with a character that is not ASCII).
    - [json.dumps] is modelled in full for the values that reach it here,
      up to the order in which the items of a [dict] are written. *)

From Stdlib Require Import ZArith NArith Ascii String List Bool Lia DecimalString.
From stdpp Require Import base option list strings gmap fin_maps.

Open Scope string_scope.
Open Scope list_scope.

(** ** Byte strings: the [str] methods used by the handler *)

Module PyStr.

(** [str.isspace] on one byte (C locale): the bytes 0x09 .. 0x0d (tab, line
    feed, vertical tab, form feed, carriage return) and the space 0x20. *)
Definition isspace (c : ascii) : bool :=
  let n := N_of_ascii c in
  ((9 <=? n) && (n <=? 13) || (n =? 32))%N.

(** [s.lstrip()] *)
Fixpoint lstrip (s : string) : string :=
  match s with
  | EmptyString => EmptyString
  | String c r => if isspace c then lstrip r else s
  end.

(** [s.rstrip()] *)
Fixpoint rstrip (s : string) : string :=
  match s with
  | EmptyString => EmptyString
  | String c r =>
      match rstrip r with
      | EmptyString => if isspace c then EmptyString else String c EmptyString
      | r' => String c r'
      end
  end.

(** [s.strip()] *)
Definition strip (s : string) : string := rstrip (lstrip s).

(** [c in s] for a one-byte [c] *)
Fixpoint contains (c : ascii) (s : string) : bool :=
  match s with
  | EmptyString => false
  | String d r => Ascii.eqb c d || contains c r
  end.

(** [s.split(sep)] for a one-byte separator: every occurrence of [sep]
    ends a field, so adjacent separators give empty fields and the result
    is never the empty list. *)
Fixpoint split (sep : ascii) (s : string) : list string :=
  match s with
  | EmptyString => [EmptyString]
  | String c r =>
      if Ascii.eqb c sep then EmptyString :: split sep r
      else match split sep r with
           | f :: fs => String c f :: fs
           | [] => [String c EmptyString]
           end
  end.

(** [s.replace(c, '')] for a one-byte [c] *)
Fixpoint remove (c : ascii) (s : string) : string :=
  match s with
  | EmptyString => EmptyString
  | String d r => if Ascii.eqb d c then remove c r else String d (remove c r)
  end.

(** [str.upper] on one byte: a..z go to A..Z. *)
Definition upper_byte (c : ascii) : ascii :=
  let n := N_of_ascii c in
  if ((97 <=? n) && (n <=? 122))%N then ascii_of_N (n - 32) else c.

(** [s.upper()] *)
Fixpoint upper (s : string) : string :=
  match s with
  | EmptyString => EmptyString
  | String c r => String (upper_byte c) (upper r)
  end.

End PyStr.

(** ** [json.dumps] (Python 2, default arguments)

    [json.dumps] writes strings through [encode_basestring_ascii]: a byte
    string holding a byte above 0x7f is first decoded as UTF-8, which raises
    [UnicodeDecodeError] when the bytes are not valid UTF-8; then every
    character outside the printable range 0x20 .. 0x7e, and the double quote
    and the backslash, are escaped. *)

Module Json.

(** The double quote, byte 0x22, and the backslash, byte 0x5c. *)
Definition dquote : ascii := "034"%char.
Definition backslash : ascii := "092"%char.

Definition is_cont (b : N) : bool := ((128 <=? b) && (b <=? 191))%N.

(** The UTF-8 decoder of CPython 2.7 on a list of bytes: [None] where it
    raises.  Overlong forms and code points above 0x10FFFF are refused;
    encoded surrogates are accepted, as CPython 2 does. *)
Fixpoint utf8_decode (bs : list N) : option (list N) :=
  match bs with
  | [] => Some []
  | b :: r =>
      if (b <? 128)%N then cons b <$> utf8_decode r
      else if (b <? 194)%N then None
      else if (b <? 224)%N then
        match r with
        | c1 :: r1 =>
            if is_cont c1
            then cons ((b - 192) * 64 + (c1 - 128))%N <$> utf8_decode r1
            else None
        | _ => None
        end
      else if (b <? 240)%N then
        match r with
        | c1 :: c2 :: r2 =>
            if is_cont c1 && is_cont c2
               && negb ((b =? 224)%N && (c1 <? 160)%N)
            then cons ((b - 224) * 4096 + (c1 - 128) * 64 + (c2 - 128))%N
                   <$> utf8_decode r2
            else None
        | _ => None
        end
      else if (b <? 245)%N then
        match r with
        | c1 :: c2 :: c3 :: r3 =>
            if is_cont c1 && is_cont c2 && is_cont c3
               && negb ((b =? 240)%N && (c1 <? 144)%N)
               && negb ((b =? 244)%N && (143 <? c1)%N)
            then cons ((b - 240) * 262144 + (c1 - 128) * 4096
                       + (c2 - 128) * 64 + (c3 - 128))%N
                   <$> utf8_decode r3
            else None
        | _ => None
        end
      else None
  end.

Definition bytes_of (s : string) : list N := map N_of_ascii (list_ascii_of_string s).

(** [HAS_UTF8.search(s) is not None] *)
Definition has_utf8 (s : string) : bool :=
  existsb (fun b => (128 <=? b)%N) (bytes_of s).

(** The characters [encode_basestring_ascii] escapes: the string as a
    list of code points, decoded only when a high byte is present. *)
Definition code_points (s : string) : option (list N) :=
  if has_utf8 s then utf8_decode (bytes_of s) else Some (bytes_of s).

Definition hex_digit (n : N) : ascii :=
  if (n <? 10)%N then ascii_of_N (48 + n) else ascii_of_N (87 + n).

(** The four-digit escape of a code point below 0x10000: backslash, u and
    four lower-case hexadecimal digits. *)
Definition u_escape (n : N) : string :=
  String backslash (String "u"
    (String (hex_digit (n / 4096 mod 16))
    (String (hex_digit (n / 256 mod 16))
    (String (hex_digit (n / 16 mod 16))
    (String (hex_digit (n mod 16)) EmptyString))))).

(** The replacement [ESCAPE_ASCII.sub] makes for one code point. *)
Definition escape_char (n : N) : string :=
  if (n =? 34)%N then String backslash (String dquote EmptyString)
  else if (n =? 92)%N then String backslash (String backslash EmptyString)
  else if (n =? 8)%N then String backslash (String "b" EmptyString)
  else if (n =? 12)%N then String backslash (String "f" EmptyString)
  else if (n =? 10)%N then String backslash (String "n" EmptyString)
  else if (n =? 13)%N then String backslash (String "r" EmptyString)
  else if (n =? 9)%N then String backslash (String "t" EmptyString)
  else if ((32 <=? n) && (n <=? 126))%N then String (ascii_of_N n) EmptyString
  else if (n <? 65536)%N then u_escape n
  else
    let m := (n - 65536)%N in
    u_escape (55296 + (m / 1024) mod 1024) +:+ u_escape (56320 + m mod 1024).

Fixpoint escape_all (cs : list N) : string :=
  match cs with
  | [] => EmptyString
  | c :: r => escape_char c +:+ escape_all r
  end.

Definition quote : string := String dquote EmptyString.

(** [encode_basestring_ascii(s)]; [None] when decoding raises. *)
Definition encode_basestring_ascii (s : string) : option string :=
  cs ← code_points s; Some (quote +:+ escape_all cs +:+ quote).

End Json.

(** ** Python values that reach [json.dumps] *)

(** Attribute values of a lookup result.  Numbers are carried with the
    text [json.dumps] writes for them (floats by their [repr]). *)
Inductive pyval :=
  | PyNone
  | PyInt (n : Z)
  | PyFloat (repr : string)
  | PyStr (s : string)
  | PyUnicode (cs : list N).

(** What [GeoServer._return] is given as [obj]: a plain value (the error
    string) or a [dict] with [str] keys (the lookup result). *)
Inductive pyobj :=
  | Val (v : pyval)
  | Dict (d : gmap string pyval).

Module JsonDumps.
Import Json.

Definition Z_to_string (z : Z) : string := NilEmpty.string_of_int (Z.to_int z).

Definition encode_val (v : pyval) : option string :=
  match v with
  | PyNone => Some "null"
  | PyInt n => Some (Z_to_string n)
  | PyFloat r => Some r
  | PyStr s => encode_basestring_ascii s
  | PyUnicode cs => Some (quote +:+ escape_all cs +:+ quote)
  end.

Definition encode_item (kv : string * pyval) : option string :=
  k ← encode_basestring_ascii kv.1;
  v ← encode_val kv.2;
  Some (k +:+ ": " +:+ v).

Fixpoint join (sep : string) (l : list string) : string :=
  match l with
  | [] => EmptyString
  | [x] => x
  | x :: r => x +:+ sep +:+ join sep r
  end.

(** A [dict] is written as its items joined by a comma and a space.
    Python 2 lists the items in hash order, which is not modelled: they are
    written here in the order of [map_to_list]. *)
Definition encode_dict (d : gmap string pyval) : option string :=
  items ← mapM encode_item (map_to_list d);
  Some ("{" +:+ join ", " items +:+ "}").

Definition encode (o : pyobj) : option string :=
  match o with
  | Val v => encode_val v
  | Dict d => encode_dict d
  end.

(** [json.dumps({label: obj})]; [None] when it raises. *)
Definition dumps1 (label : string) (obj : pyobj) : option string :=
  k ← encode_basestring_ascii label;
  v ← encode obj;
  Some ("{" +:+ k +:+ ": " +:+ v +:+ "}").

End JsonDumps.

(** ** Effects: metrics, log and backend calls, and exceptions *)

(** What a call of the handler does to the outside, in order. *)
Inductive event :=
  | TimerStart (name : string)
  | TimerStop (name label : string)
  | CounterAdd (name : string) (delta : Z)
  | LogInfo (msg : string)
  | LogError (msg : string)
  | CountryCodeCall (query : string)
  | CityCall (query : string).

(** An exception, by what an [except Exception as e] clause can do with
    it.
    - [Exc msg]: an instance of [Exception] on which [str(e)] returns the
      byte string [msg].
    - [ExcNoStr raised]: an instance of [Exception] on which [str(e)]
      raises [raised] (for a unicode message that is not ASCII, a
      [UnicodeEncodeError]).
    - [BaseExc name]: not an instance of [Exception] ([KeyboardInterrupt],
      [SystemExit], [GeneratorExit], an instance of an old-style class):
      [except Exception] lets it pass, and no clause ever calls [str] on
      it. *)
Inductive exn :=
  | Exc (msg : string)
  | ExcNoStr (raised : exn)
  | BaseExc (name : string).

(** [isinstance(e, Exception)] *)
Definition is_exception (e : exn) : bool :=
  match e with
  | Exc _ | ExcNoStr _ => true
  | BaseExc _ => false
  end.

(** How a Python call ends: it returns a value, or raises an exception. *)
Inductive outcome (A : Type) :=
  | Return (a : A)
  | Raise (e : exn).
Arguments Return {A} a.
Arguments Raise {A} e.

(** [str(e)] *)
Definition py_str (e : exn) : outcome string :=
  match e with
  | Exc msg => Return msg
  | ExcNoStr raised => Raise raised
  | BaseExc name => Return name
  end.

(** A computation: the events it emits and how it ends. *)
Definition M (A : Type) : Type := list event * outcome A.

Definition ret {A} (a : A) : M A := ([], Return a).
Definition raise {A} (e : exn) : M A := ([], Raise e).
Definition emit (ev : event) : M unit := ([ev], Return tt).

Definition bind {A B} (m : M A) (k : A -> M B) : M B :=
  match m.2 with
  | Return a => (m.1 ++ (k a).1, (k a).2)
  | Raise e => (m.1, Raise e)
  end.

(** [try: m  except Exception as e: h e]: an exception that is not an
    instance of [Exception] is not caught. *)
Definition try_except {A} (m : M A) (h : exn -> M A) : M A :=
  match m.2 with
  | Return a => m
  | Raise e => if is_exception e then (m.1 ++ (h e).1, (h e).2) else m
  end.

(** [try: m  finally: f]: [f] runs however [m] ends; an exception of [f]
    replaces the outcome of [m]. *)
Definition try_finally {A} (m : M A) (f : M unit) : M A :=
  match f.2 with
  | Return _ => (m.1 ++ f.1, m.2)
  | Raise e => (m.1 ++ f.1, Raise e)
  end.

Declare Scope py_scope.
Delimit Scope py_scope with py.
Notation "'let*' x ':=' m 'in' k" := (bind m (fun x => k))
  (at level 10, x name, m at level 100, k at level 200) : py_scope.
Open Scope py_scope.

Definition events {A} (m : M A) : list event := m.1.
Definition result {A} (m : M A) : outcome A := m.2.

Definition mmap {A B} (f : A -> B) (m : M A) : M B := let* a := m in ret (f a).

(** A call into the backend: the call is recorded and ends as the backend
    says. *)
Definition call {A} (ev : event) (o : outcome A) : M A := ([ev], o).

(** [str(e)] as a step of a computation. *)
Definition str (e : exn) : M string := ([], py_str e).

(** [l[i]]: [IndexError] out of range. *)
Definition getitem {A} (l : list A) (i : nat) : M A :=
  match l !! i with
  | Some x => ret x
  | None => raise (Exc "list index out of range")
  end.

(** ** The lookup backend and the metrics sink *)

(** The [GeoIP] handle of [base.py], by what its two lookups answer:
    a value, [None] for no data, or an exception. *)
Record GeoIP := {
  country_code : string -> outcome (option string);
  city : string -> outcome (option (gmap string pyval))
}.

(** A local of [process] that [+= 1] is applied to: the integer [0] when
    [statsd] is [None], else a counter of the sink, whose [+=] sends the
    increment and gives the counter back. *)
Inductive counter :=
  | Local (n : Z)
  | Remote (name : string).

Definition iadd (c : counter) (k : Z) : M counter :=
  match c with
  | Local n => ret (Local (n + k))
  | Remote name => let* _ := emit (CounterAdd name k) in ret c
  end.

(** ** The handler *)

Definition nl : string := String "010"%char EmptyString.
Definition dq : string := String Json.dquote EmptyString.

Definition msg_invalid_request : string :=
  "Invalid request. Try " +:+ dq +:+ "GET addr" +:+ dq.
Definition msg_invalid_command : string :=
  "Invalid command. Try " +:+ dq +:+ "GET addr" +:+ dq.
Definition msg_missing_address : string := "Missing address".
Definition msg_no_information : string := "No information for site".
Definition msg_unknown_exception (e : string) : string :=
  "Unknown Exception " +:+ dq +:+ e +:+ dq.

(** [self]: whether [settings] has a [DEBUG] attribute, and the handle
    [__init__] stored, absent when [GeoIP(...)] raised there. *)
Record GeoServer := {
  config_DEBUG : bool;
  geoip : option GeoIP
}.

Section Handler.

(** The text of the [UnicodeDecodeError] that [json.dumps({label: obj})]
    raises; it is the codec's wording and is left open. *)
Variable dumps_error : string -> pyobj -> string.

(** [self.geoip] *)
Definition self_geoip (self : GeoServer) : M GeoIP :=
  match geoip self with
  | Some g => ret g
  | None => raise (Exc "GeoServer instance has no attribute 'geoip'")
  end.

Definition when_debug (self : GeoServer) (ev : event) : M unit :=
  if config_DEBUG self then emit ev else ret tt.

Definition _return (self : GeoServer) (label : string) (obj : pyobj) : M string :=
  match JsonDumps.dumps1 label obj with
  | Some reply =>
      let* _ := when_debug self (LogInfo ("Returning: " +:+ reply)) in
      ret (reply +:+ nl)
  | None => raise (Exc (dumps_error label obj))
  end.

Definition _error (self : GeoServer) (errstr : string) : M string :=
  let* _ := when_debug self (LogError ("GEOIP: " +:+ errstr)) in
  _return self "error" (Val (PyStr errstr)).

(** [cc == 'US'] *)
Definition is_US (cc : option string) : bool :=
  match cc with
  | Some c => String.eqb c "US"
  | None => false
  end.

(** The result is [Some] line, or [None] where the function ends without
    a [return]. *)
Definition checkConnection (self : GeoServer) : M (option string) :=
  try_except
    (let* g := self_geoip self in
     let* cc := call (CountryCodeCall "mozilla.org") (country_code g "mozilla.org") in
     if is_US cc then ret (Some ("200 OK" +:+ nl)) else ret None)
    (fun e =>
       let* msg := str e in
       let* _ := emit (LogError ("Failed Health Check: " +:+ msg)) in
       ret (Some ("500 Error" +:+ nl))).

(** [item.strip().replace('/', '')] *)
Definition sanitize (item : string) : string :=
  PyStr.remove "/" (PyStr.strip item).

(** The value bound to [addr]: [Some] string, [None] for Python's [None].
    [str.replace] gives a [str]. *)
Definition extract_addr (item : string) : option string :=
  Some (sanitize item).

(** The locals set up before the [try]: the timer (started when there is
    a sink) and the three counters. *)
Definition setup (statsd : bool) : M (option string * counter * counter * counter) :=
  if statsd then
    let* _ := emit (TimerStart "GeoIP") in
    ret (Some "GeoIP", Remote "GeoIP.request", Remote "GeoIP.success",
         Remote "GeoIP.failure")
  else ret (None, Local 0, Local 0, Local 0).

(** The inner [try] of [process]: count, look up, shape the reply. *)
Definition lookup_city (self : GeoServer) (addr : string)
    (req_counter success_counter fail_counter : counter) : M (option string) :=
  try_except
    (let* _ := iadd req_counter 1 in
     let* g := self_geoip self in
     let* reply := call (CityCall addr) (city g addr) in
     match reply with
     | None =>
         let* _ := iadd fail_counter 1 in
         mmap Some (_error self msg_no_information)
     | Some d =>
         let* _ := iadd success_counter 1 in
         let d := <["addr" := PyStr addr]> d in
         mmap Some (_return self "success" (Dict d))
     end)
    (fun e =>
       let* _ := iadd fail_counter 1 in
       let* msg := str e in
       mmap Some (_error self (msg_unknown_exception msg))).

(** The body of the outer [try] of [process]. *)
Definition handle (self : GeoServer) (line : string)
    (req_counter success_counter fail_counter : counter) : M (option string) :=
  if String.eqb "monitor" (PyStr.strip line) then checkConnection self
  else if negb (PyStr.contains " " line) then
    mmap Some (_error self msg_invalid_request)
  else
    let items := PyStr.split " " line in
    let* cmd := getitem items 0 in
    let* item := getitem items 1 in
    let addr := extract_addr item in
    if negb (String.eqb (PyStr.upper cmd) "GET") then
      mmap Some (_error self msg_invalid_command)
    else
      match addr with
      | None => mmap Some (_error self msg_missing_address)
      | Some addr =>
          lookup_city self addr req_counter success_counter fail_counter
      end.

(** [process(self, job)] on [line = job.data]; [statsd] tells whether the
    module's [statsd] is a sink ([true]) or [None] ([false]). *)
Definition process (statsd : bool) (self : GeoServer) (line : string)
    : M (option string) :=
  let* locals := setup statsd in
  let '(timer, req_counter, success_counter, fail_counter) := locals in
  try_finally
    (handle self line req_counter success_counter fail_counter)
    (match timer with
     | Some name => emit (TimerStop name "Request")
     | None => ret tt
     end).

End Handler.

(** ** Vocabulary of the properties *)

(** What [self.geoip.city(addr)] does: the attribute read fails when the
    handle is absent. *)
Definition city_outcome (self : GeoServer) (addr : string)
    : outcome (option (gmap string pyval)) :=
  match geoip self with
  | Some g => city g addr
  | None => Raise (Exc "GeoServer instance has no attribute 'geoip'")
  end.

(** What [self.geoip.country_code(host)] does. *)
Definition country_outcome (self : GeoServer) (host : string)
    : outcome (option string) :=
  match geoip self with
  | Some g => country_code g host
  | None => Raise (Exc "GeoServer instance has no attribute 'geoip'")
  end.

(** A request line as it is sent: a command without a space, one space,
    and the rest of the line. *)
Definition request (cmd rest : string) : string := cmd +:+ " " +:+ rest.

(** The rest of a request up to its next space (all of it when it has
    none): [items[1]]. *)
Definition field1 (rest : string) : string := hd EmptyString (PyStr.split " " rest).

Definition is_counter_add (ev : event) : bool :=
  match ev with CounterAdd _ _ => true | _ => false end.
Definition is_timer_start (ev : event) : bool :=
  match ev with TimerStart _ => true | _ => false end.
Definition is_timer_stop (ev : event) : bool :=
  match ev with TimerStop _ _ => true | _ => false end.
Definition is_timer (ev : event) : bool := is_timer_start ev || is_timer_stop ev.

(** The counter increments of a run, in order. *)
Definition counter_adds (l : list event) : list event := List.filter is_counter_add l.
(** The timer calls of a run, in order. *)
Definition timer_calls (l : list event) : list event := List.filter is_timer l.

(** A reply line: the JSON text of a one-key object and a line feed. *)
Definition error_line (escaped : string) : string :=
  "{" +:+ dq +:+ "error" +:+ dq +:+ ": " +:+ dq +:+ escaped +:+ dq +:+ "}" +:+ nl.
Definition success_line (mapping : string) : string :=
  "{" +:+ dq +:+ "success" +:+ dq +:+ ": " +:+ mapping +:+ "}" +:+ nl.

Definition bsl : string := String Json.backslash EmptyString.

Definition line_invalid_request : string :=
  error_line ("Invalid request. Try " +:+ bsl +:+ dq +:+ "GET addr" +:+ bsl +:+ dq).
Definition line_invalid_command : string :=
  error_line ("Invalid command. Try " +:+ bsl +:+ dq +:+ "GET addr" +:+ bsl +:+ dq).
Definition line_no_information : string := error_line "No information for site".
Definition line_missing_address : string := error_line "Missing address".
(** The reply for an exception whose message has the code points [cs]. *)
Definition line_unknown_exception (cs : list N) : string :=
  error_line ("Unknown Exception " +:+ bsl +:+ dq +:+ Json.escape_all cs +:+ bsl +:+ dq).

(** The increments [c += k] sends to the sink. *)
Definition adds (c : counter) (k : Z) : list event :=
  match c with Local _ => [] | Remote name => [CounterAdd name k] end.

(** The three counters of a run with a sink. *)
Definition rq0 : counter := Remote "GeoIP.request".
Definition sc0 : counter := Remote "GeoIP.success".
Definition fc0 : counter := Remote "GeoIP.failure".

(** Bytes below 0x80 only. *)
Definition ascii_only (l : list N) : Prop := Forall (fun b => (b < 128)%N) l.

(** The log entries, and a run of them only. *)
Definition is_log (ev : event) : bool :=
  match ev with LogInfo _ | LogError _ => true | _ => false end.
Definition quiet (l : list event) : Prop := Forall (fun ev => is_log ev = true) l.

(** The backend call [self.geoip.city(addr)] makes, if the handle is
    there. *)
Definition calls (self : GeoServer) (addr : string) : list event :=
  match geoip self with Some _ => [CityCall addr] | None => [] end.

Section Replies.
Variable dumps_error : string -> pyobj -> string.

(** How [_return(label, obj)] ends. *)
Definition reply_line (label : string) (obj : pyobj) : outcome string :=
  match JsonDumps.dumps1 label obj with
  | Some reply => Return (reply +:+ nl)
  | None => Raise (Exc (dumps_error label obj))
  end.

(** How the [except] clause of the inner [try] ends on an exception it
    catches. *)
Definition handled (e : exn) : outcome (option string) :=
  match py_str e with
  | Return msg =>
      match reply_line "error" (Val (PyStr (msg_unknown_exception msg))) with
      | Return r => Return (Some r)
      | Raise e' => Raise e'
      end
  | Raise e' => Raise e'
  end.

(** What the inner [try] makes of an outcome. *)
Definition recover (o : outcome string) : outcome (option string) :=
  match o with
  | Return r => Return (Some r)
  | Raise e => if is_exception e then handled e else Raise e
  end.

(** How the inner [try] ends, by what the lookup does. *)
Definition lookup_result (self : GeoServer) (addr : string) : outcome (option string) :=
  match city_outcome self addr with
  | Return None => recover (reply_line "error" (Val (PyStr msg_no_information)))
  | Return (Some d) => recover (reply_line "success" (Dict (<["addr" := PyStr addr]> d)))
  | Raise e => recover (Raise e)
  end.

(** The log entries of the [except] clause of the inner [try]. *)
Definition clause_log (self : GeoServer) (e : exn) : list event :=
  match py_str e with
  | Return msg => events (_error dumps_error self (msg_unknown_exception msg))
  | Raise _ => []
  end.

End Replies.

(** *** The address as the specification words it

    The line is cut at its first space; the address is the first
    whitespace-delimited token of what follows, without its slashes. *)
Module Spec.

Fixpoint after_first_space (s : string) : string :=
  match s with
  | EmptyString => EmptyString
  | String c r => if Ascii.eqb c " " then r else after_first_space r
  end.

Fixpoint take_token (s : string) : string :=
  match s with
  | EmptyString => EmptyString
  | String c r => if PyStr.isspace c then EmptyString else String c (take_token r)
  end.

Definition first_token (s : string) : string := take_token (PyStr.lstrip s).

Definition address (line : string) : string :=
  PyStr.remove "/" (first_token (after_first_space line)).

End Spec.

(** *** Backends and servers used as concrete inputs *)

Module Stub.

Definition byte_ff : string := String "255"%char EmptyString.

(** [S\xe3o Paulo]: the city name in ISO-8859-1, as the legacy database
    stores it. *)
Definition sao_paulo : string := "S" +:+ String "227"%char "o Paulo".

Definition mountain_view : gmap string pyval :=
  <["city" := PyStr "Mountain View"]> (<["country" := PyStr "US"]> ∅).

(** Knows 8.8.8.8 and 200.1.2.3, raises on the name [boom] and on
    [bad], answers US to the health check. *)
Definition backend : GeoIP := {|
  country_code := fun _ => Return (Some "US");
  city := fun a =>
    if String.eqb a "8.8.8.8" then Return (Some mountain_view)
    else if String.eqb a "200.1.2.3" then Return (Some {["city" := PyStr sao_paulo]})
    else if String.eqb a "boom" then Raise (Exc "lookup failed")
    else if String.eqb a "bad" then Raise (Exc byte_ff)
    else Return None
|}.

(** Answers CA to the health check. *)
Definition backend_ca : GeoIP := {|
  country_code := fun _ => Return (Some "CA");
  city := fun _ => Return None
|}.

Definition server : GeoServer := {| config_DEBUG := false; geoip := Some backend |}.
Definition server_ca : GeoServer := {| config_DEBUG := false; geoip := Some backend_ca |}.
(** The handle is absent: [GeoIP(...)] raised in [__init__]. *)
Definition server_down : GeoServer := {| config_DEBUG := true; geoip := None |}.

(** The codec's wording for the two undecodable strings above. *)
Definition dumps_error (label : string) (obj : pyobj) : string :=
  match obj with
  | Dict _ => "'utf8' codec can't decode byte 0xe3 in position 1: invalid continuation byte"
  | Val _ => "'utf8' codec can't decode byte 0xff in position 19: invalid start byte"
  end.

End Stub.

(** ** Start-up and the entry point *)



(** [lookup(data)]: the module-level entry point, on the module's [geo]. *)
Module Entry.
Definition lookup (dumps_error : string -> pyobj -> string) (statsd : bool)
    (geo : GeoServer) (data : string) : M (option string) :=
  process dumps_error statsd geo data.
End Entry.

(** ** More vocabulary *)

(** The calls into the backend. *)
Definition is_call (ev : event) : bool :=
  match ev with CountryCodeCall _ | CityCall _ => true | _ => false end.

(** A run without its log entries. *)
Definition non_log (l : list event) : list event :=
  List.filter (fun ev => negb (is_log ev)) l.

(** The same server with the [DEBUG] attribute set or not. *)
Definition with_debug (b : bool) (self : GeoServer) : GeoServer :=
  {| config_DEBUG := b; geoip := geoip self |}.

(** Printable ASCII: the bytes 0x20 .. 0x7e. *)
Definition printable_byte (c : ascii) : bool :=
  let n := N_of_ascii c in ((32 <=? n) && (n <=? 126))%N.

Fixpoint printable (s : string) : bool :=
  match s with
  | EmptyString => true
  | String c r => printable_byte c && printable r
  end.

(** A value whose number text, if it is a float, is printable (as every
    [repr] of a float is). *)
Definition val_printable (v : pyval) : bool :=
  match v with
  | PyFloat r => printable r
  | _ => true
  end.

(** What may be written for a reply: float texts are printable. *)
Definition obj_printable (o : pyobj) : Prop :=
  match o with
  | Val v => val_printable v = true
  | Dict d => map_Forall (fun _ v => val_printable v = true) d
  end.

(** The inside of a JSON string: a backslash opens an escape and takes the
    next character with it; a quote outside an escape would close the
    string. *)
Fixpoint string_body_ok (s : string) : bool :=
  match s with
  | EmptyString => true
  | String c r =>
      if Ascii.eqb c Json.backslash then
        match r with
        | EmptyString => false
        | String _ r' => string_body_ok r'
        end
      else if Ascii.eqb c Json.dquote then false
      else string_body_ok r
  end.

(** Whitespace only. *)
Fixpoint all_space (s : string) : bool :=
  match s with
  | EmptyString => true
  | String c r => PyStr.isspace c && all_space r
  end.

(** Backends whose lookups raise what the [except] clauses cannot turn
    into a reply. *)
Module Faults.

(** What [str] raises on an exception whose message is a unicode string with
    a character outside ASCII. *)
Definition encode_error : exn :=
  Exc "'ascii' codec can't encode character u'\xe3' in position 1: ordinal not in range(128)".

(** Every lookup raises an exception with such a message. *)
Definition backend_unicode : GeoIP := {|
  country_code := fun _ => Raise (ExcNoStr encode_error);
  city := fun _ => Raise (ExcNoStr encode_error)
|}.

(** Every lookup is interrupted: [KeyboardInterrupt] is not an
    [Exception]. *)
Definition backend_interrupted : GeoIP := {|
  country_code := fun _ => Raise (BaseExc "KeyboardInterrupt");
  city := fun _ => Raise (BaseExc "KeyboardInterrupt")
|}.

Definition server_unicode : GeoServer :=
  {| config_DEBUG := false; geoip := Some backend_unicode |}.
Definition server_interrupted : GeoServer :=
  {| config_DEBUG := false; geoip := Some backend_interrupted |}.

End Faults.

(** * Properties *)

(** ** Byte strings *)

Section StrLemmas.
Import PyStr.

Lemma sapp_nil (b : string) : EmptyString +:+ b = b.
Proof. reflexivity. Qed.

Lemma sapp_cons c (a b : string) : String c a +:+ b = String c (a +:+ b).
Proof. reflexivity. Qed.

Lemma sapp_assoc (a b c : string) : (a +:+ b) +:+ c = a +:+ (b +:+ c).
Proof.
  induction a as [|x a IH]; [reflexivity|].
  now rewrite !sapp_cons, IH.
Qed.

Lemma contains_cons c d r : contains c (String d r) = Ascii.eqb c d || contains c r.
Proof. reflexivity. Qed.

Lemma split_cons sep c r :
  split sep (String c r) =
  if Ascii.eqb c sep then EmptyString :: split sep r
  else match split sep r with
       | f :: fs => String c f :: fs
       | [] => [String c EmptyString]
       end.
Proof. reflexivity. Qed.

Lemma split_not_nil sep s : split sep s <> [].
Proof.
  destruct s as [|c r]; [discriminate|].
  rewrite split_cons. destruct (Ascii.eqb c sep); [discriminate|].
  destruct (split sep r); discriminate.
Qed.

Lemma contains_request cmd rest : contains " " (request cmd rest) = true.
Proof.
  unfold request. induction cmd as [|c cmd IH]; [reflexivity|].
  rewrite sapp_cons, contains_cons, IH. apply orb_true_r.
Qed.

(** A line with a space is a command without one, a space and a rest. *)
Lemma contains_request_inv line :
  contains " " line = true ->
  exists cmd rest, line = request cmd rest /\ contains " " cmd = false.
Proof.
  induction line as [|c line IH]; [discriminate|].
  rewrite contains_cons. destruct (Ascii.eqb_spec " " c) as [<-|Hc].
  - intros _. exists EmptyString, line. split; reflexivity.
  - intros H. destruct (IH H) as (cmd & rest & -> & Hcmd).
    exists (String c cmd), rest. split; [reflexivity|].
    rewrite contains_cons, Hcmd.
    destruct (Ascii.eqb_spec " " c); [contradiction|reflexivity].
Qed.

Lemma split_request cmd rest :
  contains " " cmd = false ->
  split " " (request cmd rest) = cmd :: split " " rest.
Proof.
  unfold request. induction cmd as [|c cmd IH]; intros H; [reflexivity|].
  rewrite contains_cons in H. apply orb_false_elim in H as [Hc Hr].
  rewrite sapp_cons, split_cons, Ascii.eqb_sym, Hc, (IH Hr). reflexivity.
Qed.

Lemma split_no_sep sep s : contains sep s = false -> split sep s = [s].
Proof.
  induction s as [|c s IH]; intros H; [reflexivity|].
  rewrite contains_cons in H. apply orb_false_elim in H as [Hc Hr].
  rewrite split_cons, Ascii.eqb_sym, Hc, (IH Hr). reflexivity.
Qed.

(** The field of a request after the command: the text up to the next
    space. *)
Lemma field1_segment seg tail :
  contains " " seg = false ->
  field1 seg = seg /\ field1 (seg +:+ " " +:+ tail) = seg.
Proof.
  intros H. unfold field1. split.
  - now rewrite (split_no_sep _ _ H).
  - change (seg +:+ " " +:+ tail) with (request seg tail).
    now rewrite (split_request seg tail H).
Qed.

Lemma strip_head c r : isspace c = false -> exists r', strip (String c r) = String c r'.
Proof.
  intros H. unfold strip. simpl. rewrite H. simpl.
  destruct (rstrip r); [rewrite H|]; eauto.
Qed.

Lemma upper_GET_head cmd :
  upper cmd = "GET" ->
  exists c r, cmd = String c r /\ isspace c = false /\ c <> "m"%char.
Proof.
  destruct cmd as [|c r]; simpl; [discriminate|].
  intros H. injection H as Hc _. exists c, r. split; [reflexivity|].
  destruct c as [[] [] [] [] [] [] [] []]; vm_compute in Hc; try discriminate;
    split; (reflexivity || discriminate).
Qed.

Lemma strip_request_not_monitor cmd rest :
  upper cmd = "GET" -> String.eqb "monitor" (strip (request cmd rest)) = false.
Proof.
  intros H. destruct (upper_GET_head cmd H) as (c & r & -> & Hs & Hm).
  unfold request. rewrite sapp_cons.
  destruct (strip_head c (r +:+ " " +:+ rest) Hs) as [r' ->].
  apply String.eqb_neq. intros E. injection E as E _. now subst c.
Qed.

Lemma remove_absent c s : contains c (remove c s) = false.
Proof.
  induction s as [|d s IH]; [reflexivity|].
  simpl remove. destruct (Ascii.eqb_spec d c) as [->|Hd]; [exact IH|].
  rewrite contains_cons, IH.
  destruct (Ascii.eqb_spec c d); [congruence|reflexivity].
Qed.

End StrLemmas.

Ltac norm_str := repeat (rewrite ?sapp_assoc, ?sapp_cons, ?sapp_nil).

(** ** The encoder *)

Section JsonLemmas.
Import Json.

Lemma bytes_of_app a b : bytes_of (a +:+ b) = bytes_of a ++ bytes_of b.
Proof.
  unfold bytes_of. induction a as [|c a IH]; [reflexivity|].
  rewrite sapp_cons. simpl. now rewrite IH.
Qed.

Lemma has_utf8_app a b : has_utf8 (a +:+ b) = has_utf8 a || has_utf8 b.
Proof. unfold has_utf8. now rewrite bytes_of_app, existsb_app. Qed.

Lemma has_utf8_false s : has_utf8 s = false -> ascii_only (bytes_of s).
Proof.
  unfold has_utf8, ascii_only. induction (bytes_of s) as [|b l IH]; simpl; intros H.
  - constructor.
  - apply orb_false_elim in H as [Hb Hl]. constructor; [|auto].
    apply N.leb_gt in Hb. exact Hb.
Qed.

(** Bytes below 0x80 decode to themselves. *)
Lemma utf8_decode_ascii_app a b :
  ascii_only a -> utf8_decode (a ++ b) = (a ++.) <$> utf8_decode b.
Proof.
  induction 1 as [|x a Hx Ha IH]; simpl.
  - now destruct (utf8_decode b).
  - apply N.ltb_lt in Hx. rewrite Hx, IH. now destruct (utf8_decode b).
Qed.

Lemma utf8_decode_ascii a : ascii_only a -> utf8_decode a = Some a.
Proof.
  intros H. rewrite <- (app_nil_r a) at 1.
  rewrite (utf8_decode_ascii_app a [] H). simpl. now rewrite app_nil_r.
Qed.

(** Decoding goes sequence by sequence: after a prefix that decodes, the
    decoder starts afresh.  By induction on the length of the prefix, since
    one step takes up to four bytes. *)
Lemma utf8_decode_app a b ca :
  utf8_decode a = Some ca -> utf8_decode (a ++ b) = (ca ++.) <$> utf8_decode b.
Proof.
  remember (length a) as n eqn:Hn. revert a ca Hn.
  induction n as [n IH] using lt_wf_ind. intros a ca Hn Ha.
  destruct a as [|x a].
  { simpl in Ha. injection Ha as <-. simpl. now destruct (utf8_decode b). }
  simpl in Ha |- *.
  repeat match type of Ha with
  | (if ?c then _ else _) = _ => destruct c eqn:?
  | match ?l with [] => _ | _ :: _ => _ end = _ => destruct l; simpl app
  | None = Some _ => discriminate Ha
  end;
  match type of Ha with
  | _ <$> utf8_decode ?r = _ =>
      destruct (utf8_decode r) as [cr|] eqn:Er; [|discriminate Ha];
      simpl in Ha; injection Ha as <-;
      rewrite (IH (length r) ltac:(simpl in Hn; lia) r cr eq_refl Er);
      repeat match goal with
             | H : ?c = true |- context [if ?c then _ else _] => rewrite H
             end;
      now destruct (utf8_decode b)
  end.
Qed.

Lemma code_points_wrap pre e post cs :
  has_utf8 pre = false -> has_utf8 post = false ->
  code_points e = Some cs ->
  code_points (pre +:+ e +:+ post) = Some (bytes_of pre ++ cs ++ bytes_of post).
Proof.
  intros Hpre Hpost He. unfold code_points in *.
  rewrite !has_utf8_app, Hpre, Hpost, orb_false_r. simpl orb.
  rewrite !bytes_of_app.
  destruct (has_utf8 e).
  - rewrite (utf8_decode_ascii_app _ _ (has_utf8_false _ Hpre)).
    rewrite (utf8_decode_app _ _ _ He).
    rewrite (utf8_decode_ascii _ (has_utf8_false _ Hpost)). reflexivity.
  - now injection He as <-.
Qed.

Lemma code_points_prefix pre s X :
  has_utf8 pre = false -> code_points (pre +:+ s) = Some X ->
  exists Y, X = bytes_of pre ++ Y.
Proof.
  intros Hpre. unfold code_points. rewrite has_utf8_app, Hpre, bytes_of_app. simpl orb.
  destruct (has_utf8 s).
  - rewrite (utf8_decode_ascii_app _ _ (has_utf8_false _ Hpre)).
    destruct (utf8_decode (bytes_of s)) as [Y|]; [|discriminate].
    simpl. intros [= <-]. eauto.
  - intros [= <-]. eauto.
Qed.

Lemma escape_all_app a b : escape_all (a ++ b) = escape_all a +:+ escape_all b.
Proof.
  induction a as [|x a IH]; [reflexivity|].
  simpl. now rewrite IH, sapp_assoc.
Qed.

End JsonLemmas.

(** ** The effect layer *)

Section MonadLemmas.
Context {A B : Type}.

Lemma bind_ret_l (a : A) (k : A -> M B) : bind (ret a) k = k a.
Proof. unfold bind, ret. simpl. now destruct (k a). Qed.

Lemma result_bind (m : M A) (k : A -> M B) :
  result (bind m k) =
  match result m with Return a => result (k a) | Raise e => Raise e end.
Proof. unfold result, bind. now destruct m as [l [a|e]]. Qed.

Lemma events_bind (m : M A) (k : A -> M B) :
  events (bind m k) =
  events m ++ match result m with Return a => events (k a) | Raise _ => [] end.
Proof.
  unfold events, result, bind. destruct m as [l [a|e]]; simpl; [reflexivity|].
  now rewrite app_nil_r.
Qed.

Lemma result_try_except (m : M A) (h : exn -> M A) :
  result (try_except m h) =
  match result m with
  | Return a => Return a
  | Raise e => if is_exception e then result (h e) else Raise e
  end.
Proof.
  unfold result, try_except. destruct m as [l [a|e]]; [reflexivity|].
  simpl. now destruct (is_exception e).
Qed.

Lemma events_try_except (m : M A) (h : exn -> M A) :
  events (try_except m h) =
  events m ++
  match result m with
  | Return _ => []
  | Raise e => if is_exception e then events (h e) else []
  end.
Proof.
  unfold events, result, try_except. destruct m as [l [a|e]]; simpl.
  - now rewrite app_nil_r.
  - destruct (is_exception e); simpl; [reflexivity|now rewrite app_nil_r].
Qed.

Lemma result_str e : result (str e) = py_str e.
Proof. reflexivity. Qed.

Lemma events_str e : events (str e) = [].
Proof. reflexivity. Qed.

Lemma result_mmap (f : A -> B) (m : M A) :
  result (mmap f m) =
  match result m with Return a => Return (f a) | Raise e => Raise e end.
Proof. unfold mmap. rewrite result_bind. now destruct (result m). Qed.

Lemma events_mmap (f : A -> B) (m : M A) : events (mmap f m) = events m.
Proof.
  unfold mmap. rewrite events_bind. destruct (result m); simpl; now rewrite app_nil_r.
Qed.

End MonadLemmas.

Lemma result_iadd c k : exists c', result (iadd c k) = Return c'.
Proof. destruct c; simpl; eauto. Qed.

Lemma events_iadd c k : events (iadd c k) = adds c k.
Proof. now destruct c. Qed.

(** ** Reply lines *)

Section LineLemmas.
Import Json JsonDumps.
Variable de : string -> pyobj -> string.

Lemma reply_invalid_request :
  reply_line de "error" (Val (PyStr msg_invalid_request)) = Return line_invalid_request.
Proof. reflexivity. Qed.

Lemma reply_invalid_command :
  reply_line de "error" (Val (PyStr msg_invalid_command)) = Return line_invalid_command.
Proof. reflexivity. Qed.

Lemma reply_no_information :
  reply_line de "error" (Val (PyStr msg_no_information)) = Return line_no_information.
Proof. reflexivity. Qed.

Lemma reply_missing_address :
  reply_line de "error" (Val (PyStr msg_missing_address)) = Return line_missing_address.
Proof. reflexivity. Qed.

(** A message that decodes is written between escaped quotes after the
    words Unknown Exception. *)
Lemma reply_unknown_exception e cs :
  code_points e = Some cs ->
  reply_line de "error" (Val (PyStr (msg_unknown_exception e)))
  = Return (line_unknown_exception cs).
Proof.
  intros He. unfold reply_line, dumps1, encode, encode_val, encode_basestring_ascii.
  change (code_points "error") with (Some (bytes_of "error")).
  unfold msg_unknown_exception.
  rewrite <- (sapp_assoc "Unknown Exception " dq (e +:+ dq)).
  rewrite (code_points_wrap ("Unknown Exception " +:+ dq) e dq cs eq_refl eq_refl He).
  simpl mbind. rewrite !escape_all_app.
  change (escape_all (bytes_of ("Unknown Exception " +:+ dq)))
    with ("Unknown Exception " +:+ bsl +:+ dq).
  change (escape_all (bytes_of dq)) with (bsl +:+ dq).
  change (escape_all (bytes_of "error")) with "error".
  unfold line_unknown_exception, error_line, quote, dq, bsl.
  norm_str. reflexivity.
Qed.

(** Whatever the message, a reply for an exception opens with the key
    error and the letter U. *)
Lemma reply_unknown_exception_shape e r :
  reply_line de "error" (Val (PyStr (msg_unknown_exception e))) = Return r ->
  exists rest, r = "{" +:+ dq +:+ "error" +:+ dq +:+ ": " +:+ dq +:+ "U" +:+ rest.
Proof.
  unfold reply_line, dumps1, encode, encode_val, encode_basestring_ascii.
  change (code_points "error") with (Some (bytes_of "error")).
  unfold msg_unknown_exception.
  destruct (code_points _) as [X|] eqn:E; [|discriminate].
  apply (code_points_prefix "U") in E as [Y ->]; [|reflexivity].
  simpl mbind. intros [= <-].
  change (bytes_of "U" ++ Y) with (85%N :: Y).
  change (escape_all (85%N :: Y)) with ("U" +:+ escape_all Y).
  change (escape_all (bytes_of "error")) with "error".
  eexists. unfold quote, dq. norm_str. reflexivity.
Qed.

(** A success reply is the one-key object success around the text of the
    mapping. *)
Lemma reply_success_shape obj r :
  reply_line de "success" obj = Return r ->
  exists v, encode obj = Some v /\ r = success_line v.
Proof.
  unfold reply_line, dumps1.
  change (encode_basestring_ascii "success") with (Some (quote +:+ "success" +:+ quote)).
  simpl mbind. destruct (encode obj) as [v|]; [|discriminate].
  simpl. intros [= <-]. exists v. split; [reflexivity|].
  unfold success_line, quote, dq. norm_str. reflexivity.
Qed.

Lemma reply_success obj v :
  encode obj = Some v -> reply_line de "success" obj = Return (success_line v).
Proof.
  intros H. unfold reply_line, dumps1.
  change (encode_basestring_ascii "success") with (Some (quote +:+ "success" +:+ quote)).
  simpl mbind. rewrite H. simpl.
  unfold success_line, quote, dq. norm_str. reflexivity.
Qed.

Lemma reply_success_raise obj :
  encode obj = None ->
  reply_line de "success" obj = Raise (Exc (de "success" obj)).
Proof.
  intros H. unfold reply_line, dumps1.
  change (encode_basestring_ascii "success") with (Some (quote +:+ "success" +:+ quote)).
  simpl mbind. now rewrite H.
Qed.

End LineLemmas.

(** ** The handler *)

Lemma quiet_app l1 l2 : quiet l1 -> quiet l2 -> quiet (l1 ++ l2).
Proof. apply Forall_app_2. Qed.

Lemma quiet_nil : quiet [].
Proof. constructor. Qed.

Lemma quiet_counter_adds l : quiet l -> counter_adds l = [].
Proof.
  induction 1 as [|ev l Hev _ IH]; [reflexivity|].
  simpl. destruct ev; try discriminate Hev; exact IH.
Qed.

Lemma quiet_timer_calls l : quiet l -> timer_calls l = [].
Proof.
  induction 1 as [|ev l Hev _ IH]; [reflexivity|].
  simpl. destruct ev; try discriminate Hev; exact IH.
Qed.

Lemma quiet_no_call l a : quiet l -> ~ In (CityCall a) l.
Proof.
  induction 1 as [|ev l Hev _ IH]; [intros []|].
  intros [->|H]; [discriminate Hev|auto].
Qed.

Lemma counter_adds_app l1 l2 : counter_adds (l1 ++ l2) = counter_adds l1 ++ counter_adds l2.
Proof. apply List.filter_app. Qed.

Lemma timer_calls_app l1 l2 : timer_calls (l1 ++ l2) = timer_calls l1 ++ timer_calls l2.
Proof. apply List.filter_app. Qed.

Lemma counter_adds_adds c k : counter_adds (adds c k) = adds c k.
Proof. now destruct c. Qed.

Lemma timer_calls_adds c k : timer_calls (adds c k) = [].
Proof. now destruct c. Qed.

Lemma counter_adds_calls self a : counter_adds (calls self a) = [].
Proof. unfold calls. now destruct (geoip self). Qed.

Lemma timer_calls_calls self a : timer_calls (calls self a) = [].
Proof. unfold calls. now destruct (geoip self). Qed.

Section HandlerLemmas.
Variable de : string -> pyobj -> string.

Lemma result_return self label obj :
  result (_return de self label obj) = reply_line de label obj.
Proof.
  unfold _return, reply_line. destruct (JsonDumps.dumps1 label obj); [|reflexivity].
  rewrite result_bind. unfold when_debug. now destruct (config_DEBUG self).
Qed.

Lemma result_error self m :
  result (_error de self m) = reply_line de "error" (Val (PyStr m)).
Proof.
  unfold _error. rewrite result_bind, result_return.
  unfold when_debug. now destruct (config_DEBUG self).
Qed.

Lemma quiet_return self label obj : quiet (events (_return de self label obj)).
Proof.
  unfold _return, when_debug.
  destruct (JsonDumps.dumps1 label obj); [|apply quiet_nil].
  destruct (config_DEBUG self); repeat constructor.
Qed.

Lemma quiet_error self m : quiet (events (_error de self m)).
Proof.
  unfold _error. rewrite events_bind. apply quiet_app.
  - unfold when_debug. destruct (config_DEBUG self); repeat constructor.
  - destruct (result _); [apply quiet_return|apply quiet_nil].
Qed.

Lemma process_sink self line :
  process de true self line
  = (TimerStart "GeoIP" :: events (handle de self line rq0 sc0 fc0)
       ++ [TimerStop "GeoIP" "Request"],
     result (handle de self line rq0 sc0 fc0)).
Proof.
  unfold process, setup, try_finally, bind, emit, ret, events, result. simpl.
  now destruct (handle de self line _ _ _).
Qed.

Lemma process_nosink self line :
  process de false self line = handle de self line (Local 0) (Local 0) (Local 0).
Proof.
  unfold process, setup, try_finally, bind, emit, ret. simpl.
  destruct (handle de self line _ _ _). simpl. now rewrite app_nil_r.
Qed.

Lemma result_self_geoip self :
  result (self_geoip self) =
  match geoip self with
  | Some g => Return g
  | None => Raise (Exc "GeoServer instance has no attribute 'geoip'")
  end.
Proof. unfold self_geoip. now destruct (geoip self). Qed.

Lemma events_self_geoip self : events (self_geoip self) = [].
Proof. unfold self_geoip. now destruct (geoip self). Qed.

(** The [except] clause of the inner [try]: the failure is counted, then
    [str(e)] is taken, then the reply is written. *)
Lemma result_except_clause self fc e :
  result (let* _ := iadd fc 1 in
          let* msg := str e in
          mmap Some (_error de self (msg_unknown_exception msg)))
  = handled de e.
Proof.
  rewrite result_bind. destruct (result_iadd fc 1) as [c ->].
  rewrite result_bind, result_str. unfold handled.
  destruct (py_str e) as [msg|e']; [|reflexivity].
  rewrite result_mmap, result_error. now destruct (reply_line de "error" _).
Qed.

Lemma events_except_clause self fc e :
  events (let* _ := iadd fc 1 in
          let* msg := str e in
          mmap Some (_error de self (msg_unknown_exception msg)))
  = adds fc 1 ++
    match py_str e with
    | Return msg => events (_error de self (msg_unknown_exception msg))
    | Raise _ => []
    end.
Proof.
  rewrite events_bind, events_iadd. destruct (result_iadd fc 1) as [c ->].
  rewrite events_bind, events_str, result_str. simpl app.
  destruct (py_str e) as [msg|e']; [|reflexivity].
  now rewrite events_mmap.
Qed.

Lemma quiet_clause_log self e : quiet (clause_log de self e).
Proof.
  unfold clause_log. destruct (py_str e); [apply quiet_error|apply quiet_nil].
Qed.

(** The inner [try], by cases on what the lookup does. *)
Lemma result_lookup_city self addr rq sc fc :
  result (lookup_city de self addr rq sc fc) = lookup_result de self addr.
Proof.
  unfold lookup_city, lookup_result, city_outcome, recover.
  rewrite result_try_except, result_bind.
  destruct (result_iadd rq 1) as [c ->].
  rewrite result_bind, result_self_geoip.
  destruct (geoip self) as [g|].
  - rewrite result_bind. unfold call at 1. unfold result at 1. simpl snd.
    destruct (city g addr) as [[d|]|e].
    + rewrite result_bind. destruct (result_iadd sc 1) as [c' ->].
      rewrite result_mmap, result_return.
      destruct (reply_line de "success" _) as [r|e]; [reflexivity|].
      destruct (is_exception e); [apply result_except_clause|reflexivity].
    + rewrite result_bind. destruct (result_iadd fc 1) as [c' ->].
      rewrite result_mmap, result_error.
      destruct (reply_line de "error" (Val (PyStr msg_no_information))) as [r|e];
        [reflexivity|].
      destruct (is_exception e); [apply result_except_clause|reflexivity].
    + destruct (is_exception e); [apply result_except_clause|reflexivity].
  - simpl is_exception. cbv iota. apply result_except_clause.
Qed.

Ltac ev_step :=
  repeat first
    [ rewrite events_bind | rewrite events_try_except | rewrite events_mmap
    | rewrite events_iadd | rewrite events_self_geoip
    | rewrite result_bind | rewrite result_mmap | rewrite result_self_geoip
    | rewrite result_return | rewrite result_error
    | match goal with
      | |- context [result (iadd ?c ?k)] =>
          let c' := fresh "c" in destruct (result_iadd c k) as [c' ->]
      end ].

Ltac ev_fin :=
  ev_step; simpl; repeat (rewrite <- List.app_assoc; simpl);
  rewrite ?app_nil_r; reflexivity.

Ltac fin_app :=
  repeat (rewrite <- List.app_assoc); simpl; rewrite ?app_nil_r; reflexivity.

(** What the body of the inner [try] emits and how it ends. *)
Lemma lookup_body self addr rq sc fc :
  (let* _ := iadd rq 1 in
   let* g := self_geoip self in
   let* reply := call (CityCall addr) (city g addr) in
   match reply with
   | None =>
       let* _ := iadd fc 1 in
       mmap Some (_error de self msg_no_information)
   | Some d =>
       let* _ := iadd sc 1 in
       let d := <["addr" := PyStr addr]> d in
       mmap Some (_return de self "success" (Dict d))
   end)
  = (adds rq 1 ++ calls self addr ++
     match city_outcome self addr with
     | Return None => adds fc 1 ++ events (_error de self msg_no_information)
     | Return (Some d) =>
         adds sc 1
         ++ events (_return de self "success" (Dict (<["addr" := PyStr addr]> d)))
     | Raise _ => []
     end,
     match city_outcome self addr with
     | Return None => Return (Some line_no_information)
     | Return (Some d) =>
         match reply_line de "success" (Dict (<["addr" := PyStr addr]> d)) with
         | Return r => Return (Some r)
         | Raise e => Raise e
         end
     | Raise e => Raise e
     end).
Proof.
  match goal with |- ?m = _ => rewrite (surjective_pairing m) end.
  change (?m.1) with (events m). change (?m.2) with (result m).
  unfold city_outcome, calls. f_equal.
  - ev_step. destruct (geoip self) as [g|]; ev_step; [|ev_fin].
    change (events (call (CityCall addr) (city g addr))) with [CityCall addr].
    change (result (call (CityCall addr) (city g addr))) with (city g addr).
    destruct (city g addr) as [[d|]|e]; ev_fin.
  - ev_step. destruct (geoip self) as [g|]; ev_step; [|reflexivity].
    change (result (call (CityCall addr) (city g addr))) with (city g addr).
    destruct (city g addr) as [[d|]|e]; ev_step; reflexivity.
Qed.

(** What the inner [try] emits: the request count, the backend call, one
    count for how the lookup ended, and a second count when the success
    reply cannot be written; log entries apart.  An exception that
    [except Exception] does not catch is not counted. *)
Lemma events_lookup_city self addr rq sc fc :
  exists L1 L2, quiet L1 /\ quiet L2 /\
  events (lookup_city de self addr rq sc fc) =
  adds rq 1 ++ calls self addr ++
  match city_outcome self addr with
  | Return None => adds fc 1 ++ L1
  | Return (Some d) =>
      adds sc 1 ++ L1 ++
      match reply_line de "success" (Dict (<["addr" := PyStr addr]> d)) with
      | Return _ => []
      | Raise _ => adds fc 1 ++ L2
      end
  | Raise e => if is_exception e then adds fc 1 ++ L1 else []
  end.
Proof.
  unfold lookup_city. rewrite events_try_except, lookup_body.
  unfold events at 1. unfold result at 1. cbn [fst snd].
  destruct (city_outcome self addr) as [[d|]|e].
  - exists (events (_return de self "success" (Dict (<["addr" := PyStr addr]> d)))).
    unfold reply_line.
    destruct (JsonDumps.dumps1 "success" _) as [t|].
    + exists []. split; [apply quiet_return|]. split; [apply quiet_nil|].
      fin_app.
    + exists (clause_log de self (Exc (de "success" (Dict (<["addr" := PyStr addr]> d))))).
      split; [apply quiet_return|]. split; [apply quiet_clause_log|].
      simpl is_exception. cbv iota. rewrite events_except_clause.
      fin_app.
  - exists (events (_error de self msg_no_information)), [].
    split; [apply quiet_error|]. split; [apply quiet_nil|].
    fin_app.
  - exists (clause_log de self e), [].
    split; [apply quiet_clause_log|]. split; [apply quiet_nil|].
    destruct (is_exception e).
    + rewrite events_except_clause. fin_app.
    + fin_app.
Qed.

End HandlerLemmas.

Section HandleLemmas.
Variable de : string -> pyobj -> string.

Lemma handle_request_gen self cmd rest rq sc fc :
  PyStr.contains " " cmd = false ->
  String.eqb "monitor" (PyStr.strip (request cmd rest)) = false ->
  handle de self (request cmd rest) rq sc fc
  = if String.eqb (PyStr.upper cmd) "GET"
    then lookup_city de self (sanitize (field1 rest)) rq sc fc
    else mmap Some (_error de self msg_invalid_command).
Proof.
  intros Hc Hm. unfold handle.
  rewrite Hm, contains_request, (split_request _ _ Hc).
  unfold field1. destruct (PyStr.split " " rest) as [|f fs] eqn:E.
  { now apply split_not_nil in E. }
  unfold getitem. simpl lookup. cbv iota. rewrite !bind_ret_l.
  now destruct (String.eqb (PyStr.upper cmd) "GET").
Qed.

(** A request whose command is GET in any case goes to the lookup, with
    the sanitized field after the command as the address. *)
Lemma handle_request self cmd rest rq sc fc :
  PyStr.contains " " cmd = false -> PyStr.upper cmd = "GET" ->
  handle de self (request cmd rest) rq sc fc
  = lookup_city de self (sanitize (field1 rest)) rq sc fc.
Proof.
  intros Hc Hu.
  rewrite (handle_request_gen _ _ _ _ _ _ Hc (strip_request_not_monitor _ _ Hu)).
  now rewrite Hu.
Qed.

(** The four ways through the outer [try], by the line alone. *)
Lemma handle_cases self line :
  (String.eqb "monitor" (PyStr.strip line) = true /\
   forall rq sc fc, handle de self line rq sc fc = checkConnection self)
  \/ (PyStr.contains " " line = false /\
      forall rq sc fc,
        handle de self line rq sc fc = mmap Some (_error de self msg_invalid_request))
  \/ (exists cmd rest,
        line = request cmd rest /\ PyStr.contains " " cmd = false /\
        PyStr.upper cmd = "GET" /\
        forall rq sc fc,
          handle de self line rq sc fc
          = lookup_city de self (sanitize (field1 rest)) rq sc fc)
  \/ (exists cmd rest,
        line = request cmd rest /\ PyStr.contains " " cmd = false /\
        PyStr.upper cmd <> "GET" /\
        forall rq sc fc,
          handle de self line rq sc fc
          = mmap Some (_error de self msg_invalid_command)).
Proof.
  destruct (String.eqb "monitor" (PyStr.strip line)) eqn:Hm.
  { left. split; [reflexivity|]. intros. unfold handle. now rewrite Hm. }
  destruct (PyStr.contains " " line) eqn:Hs.
  2:{ right. left. split; [reflexivity|]. intros. unfold handle. now rewrite Hm, Hs. }
  destruct (contains_request_inv line Hs) as (cmd & rest & -> & Hc).
  destruct (String.eqb_spec (PyStr.upper cmd) "GET") as [Hu|Hu].
  - right. right. left. exists cmd, rest. repeat split; auto.
    intros. now apply handle_request.
  - right. right. right. exists cmd, rest. repeat split; auto.
    intros. rewrite (handle_request_gen _ _ _ _ _ _ Hc Hm).
    now destruct (String.eqb_spec (PyStr.upper cmd) "GET").
Qed.

Lemma result_checkConnection self :
  result (checkConnection self) =
  match country_outcome self "mozilla.org" with
  | Return cc => if is_US cc then Return (Some ("200 OK" +:+ nl)) else Return None
  | Raise e =>
      if is_exception e then
        match py_str e with
        | Return _ => Return (Some ("500 Error" +:+ nl))
        | Raise e' => Raise e'
        end
      else Raise e
  end.
Proof.
  unfold checkConnection, country_outcome, self_geoip.
  rewrite result_try_except.
  destruct (geoip self) as [g|]; [|reflexivity].
  rewrite bind_ret_l, result_bind.
  change (result (call (CountryCodeCall "mozilla.org") (country_code g "mozilla.org")))
    with (country_code g "mozilla.org").
  destruct (country_code g "mozilla.org") as [cc|e]; [now destruct (is_US cc)|].
  destruct (is_exception e); [|reflexivity].
  rewrite result_bind, result_str. now destruct (py_str e).
Qed.

Lemma events_checkConnection_full self :
  events (checkConnection self) =
  match geoip self with
  | Some g =>
      CountryCodeCall "mozilla.org" ::
      match country_code g "mozilla.org" with
      | Return _ => []
      | Raise e =>
          if is_exception e then
            match py_str e with
            | Return msg => [LogError ("Failed Health Check: " +:+ msg)]
            | Raise _ => []
            end
          else []
      end
  | None =>
      [LogError ("Failed Health Check: "
                 +:+ "GeoServer instance has no attribute 'geoip'")]
  end.
Proof.
  unfold checkConnection, self_geoip.
  destruct (geoip self) as [g|]; [|reflexivity].
  rewrite bind_ret_l, events_try_except, events_bind, result_bind.
  change (events (call (CountryCodeCall "mozilla.org") (country_code g "mozilla.org")))
    with [CountryCodeCall "mozilla.org"].
  change (result (call (CountryCodeCall "mozilla.org") (country_code g "mozilla.org")))
    with (country_code g "mozilla.org").
  destruct (country_code g "mozilla.org") as [cc|e].
  - now destruct (is_US cc).
  - destruct (is_exception e); [|reflexivity].
    rewrite events_bind, events_str, result_str.
    now destruct (py_str e).
Qed.

Lemma events_checkConnection self :
  counter_adds (events (checkConnection self)) = [] /\
  timer_calls (events (checkConnection self)) = [].
Proof.
  rewrite events_checkConnection_full.
  destruct (geoip self) as [g|]; [|split; reflexivity].
  destruct (country_code g "mozilla.org") as [cc|e]; [split; reflexivity|].
  destruct (is_exception e); [|split; reflexivity].
  destruct (py_str e); split; reflexivity.
Qed.

Lemma counter_adds_lookup_city self addr rq sc fc :
  counter_adds (events (lookup_city de self addr rq sc fc)) =
  adds rq 1 ++
  match city_outcome self addr with
  | Return None => adds fc 1
  | Return (Some d) =>
      adds sc 1 ++
      match reply_line de "success" (Dict (<["addr" := PyStr addr]> d)) with
      | Return _ => []
      | Raise _ => adds fc 1
      end
  | Raise e => if is_exception e then adds fc 1 else []
  end.
Proof.
  destruct (events_lookup_city de self addr rq sc fc) as (L1 & L2 & Q1 & Q2 & ->).
  rewrite !counter_adds_app, counter_adds_adds, counter_adds_calls. simpl app.
  f_equal.
  destruct (city_outcome self addr) as [[d|]|e]; [| |destruct (is_exception e)];
    rewrite ?counter_adds_app, ?counter_adds_adds, ?(quiet_counter_adds _ Q1),
      ?app_nil_r; try reflexivity.
  f_equal. destruct (reply_line de "success" _); [reflexivity|].
  now rewrite counter_adds_app, counter_adds_adds, (quiet_counter_adds _ Q2), app_nil_r.
Qed.

Lemma timer_calls_lookup_city self addr rq sc fc :
  timer_calls (events (lookup_city de self addr rq sc fc)) = [].
Proof.
  destruct (events_lookup_city de self addr rq sc fc) as (L1 & L2 & Q1 & Q2 & ->).
  rewrite !timer_calls_app, timer_calls_adds, timer_calls_calls. simpl app.
  destruct (city_outcome self addr) as [[d|]|e]; [| |destruct (is_exception e)];
    rewrite ?timer_calls_app, ?timer_calls_adds, ?(quiet_timer_calls _ Q1);
    try reflexivity.
  destruct (reply_line de "success" _); [reflexivity|].
  now rewrite timer_calls_app, timer_calls_adds, (quiet_timer_calls _ Q2).
Qed.

(** The backend is called with the address and with nothing else. *)
Lemma city_calls_lookup_city self addr rq sc fc a :
  In (CityCall a) (events (lookup_city de self addr rq sc fc)) <->
  a = addr /\ geoip self <> None.
Proof.
  destruct (events_lookup_city de self addr rq sc fc) as (L1 & L2 & Q1 & Q2 & ->).
  assert (Hadds : forall c k, ~ In (CityCall a) (adds c k)).
  { intros [n|n] k; simpl; [tauto|]. intros [H|[]]. discriminate H. }
  rewrite !in_app_iff. unfold calls. split.
  - intros [H|[H|H]].
    + now apply Hadds in H.
    + destruct (geoip self); [|destruct H].
      destruct H as [[= ->]|[]]. split; [reflexivity|discriminate].
    + exfalso. destruct (city_outcome self addr) as [[d|]|e];
        rewrite ?in_app_iff in H.
      * destruct H as [H|[H|H]]; [now apply Hadds in H|now apply quiet_no_call in H|].
        destruct (reply_line de "success" _); [destruct H|].
        rewrite in_app_iff in H.
        destruct H as [H|H]; [now apply Hadds in H|now apply quiet_no_call in H].
      * destruct H as [H|H]; [now apply Hadds in H|now apply quiet_no_call in H].
      * destruct (is_exception e); [|destruct H]. rewrite in_app_iff in H.
        destruct H as [H|H]; [now apply Hadds in H|now apply quiet_no_call in H].
  - intros [-> Hg]. right. left. destruct (geoip self); [now left|congruence].
Qed.

(** The outer [try] never touches the timer. *)
Lemma timer_calls_handle self line rq sc fc :
  timer_calls (events (handle de self line rq sc fc)) = [].
Proof.
  destruct (handle_cases self line)
    as [[_ H]|[[_ H]|[(cmd & rest & _ & _ & _ & H)|(cmd & rest & _ & _ & _ & H)]]];
    rewrite H.
  - apply events_checkConnection.
  - rewrite events_mmap. apply quiet_timer_calls, quiet_error.
  - apply timer_calls_lookup_city.
  - rewrite events_mmap. apply quiet_timer_calls, quiet_error.
Qed.

(** How the outer [try] ends does not depend on the counters. *)
Lemma result_handle_counters self line rq sc fc rq' sc' fc' :
  result (handle de self line rq sc fc) = result (handle de self line rq' sc' fc').
Proof.
  destruct (handle_cases self line)
    as [[_ H]|[[_ H]|[(cmd & rest & _ & _ & _ & H)|(cmd & rest & _ & _ & _ & H)]]];
    rewrite !H; try reflexivity.
  now rewrite !result_lookup_city.
Qed.

Lemma result_process statsd self line rq sc fc :
  result (process de statsd self line) = result (handle de self line rq sc fc).
Proof.
  destruct statsd.
  - rewrite process_sink. unfold result at 1. simpl snd. apply result_handle_counters.
  - rewrite process_nosink. apply result_handle_counters.
Qed.

(** When the [except] clause of the inner [try] returns, it returns an
    Unknown Exception line. *)
Lemma recover_raise_shape e r :
  recover de (Raise e) = Return r ->
  exists rest,
    r = Some ("{" +:+ dq +:+ "error" +:+ dq +:+ ": " +:+ dq +:+ "U" +:+ rest).
Proof.
  unfold recover, handled.
  destruct (is_exception e); [|discriminate].
  destruct (py_str e) as [msg|e']; [|discriminate].
  destruct (reply_line de "error" _) as [s|] eqn:E; [|discriminate].
  intros [= <-]. apply reply_unknown_exception_shape in E as [rest ->]. eauto.
Qed.

(** The three ways an exception leaves the inner [try]: it is not one
    that [except Exception] catches; or it is caught and [str] raises on
    it; or it is caught, [str] returns its message, and [json.dumps] raises
    on the Unknown Exception reply. *)
Lemma recover_raise_cases e x :
  recover de (Raise e) = Raise x <->
  (is_exception e = false /\ x = e)
  \/ (is_exception e = true /\ py_str e = Raise x)
  \/ (is_exception e = true /\
      exists msg, py_str e = Return msg /\
        reply_line de "error" (Val (PyStr (msg_unknown_exception msg))) = Raise x).
Proof.
  unfold recover, handled. destruct (is_exception e).
  - destruct (py_str e) as [msg|e'].
    + destruct (reply_line de "error" _) as [r|e''] eqn:E.
      * split; [discriminate|].
        intros [[H _]|[[_ H]|(_ & m & [= <-] & H)]]; try discriminate.
        rewrite E in H. discriminate.
      * split.
        -- intros [= <-]. right. right. split; [reflexivity|]. eauto.
        -- intros [[H _]|[[_ H]|(_ & m & [= <-] & H)]]; try discriminate.
           rewrite E in H. now injection H as <-.
    + split.
      * intros [= <-]. right. left. now split.
      * intros [[H _]|[[_ H]|(_ & m & H & _)]]; try discriminate.
        now injection H as <-.
  - split.
    + intros [= <-]. left. now split.
    + intros [[_ ->]|[[H _]|[H _]]]; [reflexivity|discriminate|discriminate].
Qed.

(** The replies the inner [try] can give. *)
Lemma lookup_result_cases self addr r :
  lookup_result de self addr = Return r ->
  exists s, r = Some s /\
    (s = line_no_information
     \/ (exists d v,
           city_outcome self addr = Return (Some d) /\
           JsonDumps.encode (Dict (<["addr" := PyStr addr]> d)) = Some v /\
           s = success_line v)
     \/ (exists rest,
           s = "{" +:+ dq +:+ "error" +:+ dq +:+ ": " +:+ dq +:+ "U" +:+ rest)).
Proof.
  unfold lookup_result.
  assert (Hrec : forall e, recover de (Raise e) = Return r ->
    exists s, r = Some s /\
      exists rest, s = "{" +:+ dq +:+ "error" +:+ dq +:+ ": " +:+ dq +:+ "U" +:+ rest).
  { intros e H. apply recover_raise_shape in H as [rest ->]. eauto. }
  destruct (city_outcome self addr) as [[d|]|e].
  - destruct (reply_line de "success" _) as [s|e] eqn:E.
    + intros [= <-]. exists s. split; [reflexivity|]. right. left.
      apply reply_success_shape in E as (v & Hv & ->). eauto.
    + intros H. destruct (Hrec e H) as (s & -> & Hs). eauto.
  - rewrite reply_no_information. intros [= <-]. eauto.
  - intros H. destruct (Hrec e H) as (s & -> & Hs). eauto.
Qed.

End HandleLemmas.

(** * The claims *)

Section Claims.
Variable de : string -> pyobj -> string.

Lemma result_request_success statsd self cmd rest d v :
  PyStr.contains " " cmd = false ->
  PyStr.upper cmd = "GET" ->
  city_outcome self (sanitize (field1 rest)) = Return (Some d) ->
  JsonDumps.encode (Dict (<["addr" := PyStr (sanitize (field1 rest))]> d)) = Some v ->
  result (process de statsd self (request cmd rest)) = Return (Some (success_line v)).
Proof.
  intros Hc Hu Hcity Hv.
  rewrite (result_process de statsd self _ rq0 sc0 fc0).
  rewrite (handle_request de self cmd rest _ _ _ Hc Hu), result_lookup_city.
  unfold lookup_result, recover. rewrite Hcity.
  now rewrite (reply_success de _ v Hv).
Qed.

(** The catch-all clause at work.  For a request whose command is GET and
    whose backend lookup raises an exception that [except Exception]
    catches, whose [str] returns a message, and whose message [json.dumps]
    can decode, the run returns the reply line whose only key is error and
    whose text is Unknown Exception followed by the message between escaped
    quotes. *)
Lemma backend_exception_reply statsd self cmd rest e msg cs :
  PyStr.contains " " cmd = false ->
  PyStr.upper cmd = "GET" ->
  city_outcome self (sanitize (field1 rest)) = Raise e ->
  is_exception e = true ->
  py_str e = Return msg ->
  Json.code_points msg = Some cs ->
  result (process de statsd self (request cmd rest))
  = Return (Some (line_unknown_exception cs)).
Proof.
  intros Hc Hu Hcity He Hs Hm.
  rewrite (result_process de statsd self _ rq0 sc0 fc0).
  rewrite (handle_request de self cmd rest _ _ _ Hc Hu), result_lookup_city.
  unfold lookup_result, recover, handled. rewrite Hcity, He, Hs.
  now rewrite (reply_unknown_exception de msg cs Hm).
Qed.

(** C2 (as amended).  For a request whose command is GET and for which the
    city lookup returns a mapping, if the mapping with the sanitized address
    put under the key addr can be written by [json.dumps] as the text [v],
    then [process] returns one line: the object with the single key success
    and the value [v], and a line feed. *)
Theorem process_success_reply statsd self cmd rest d v :
  PyStr.contains " " cmd = false ->
  PyStr.upper cmd = "GET" ->
  city_outcome self (sanitize (field1 rest)) = Return (Some d) ->
  JsonDumps.encode (Dict (<["addr" := PyStr (sanitize (field1 rest))]> d)) = Some v ->
  result (process de statsd self (request cmd rest)) = Return (Some (success_line v)).
Proof. apply result_request_success. Qed.

(** C4 (as amended).  For a line whose trimmed content is the token
    monitor, [process] returns what the health check returns and no counter
    is incremented; the health check itself touches no timer, and the run
    starts the request timer before it and stops it after it when there is
    a metrics sink, and touches no timer when there is none. *)
Theorem process_monitor_delegates statsd self line :
  PyStr.strip line = "monitor" ->
  result (process de statsd self line) = result (checkConnection self)
  /\ events (process de statsd self line)
     = (if statsd then [TimerStart "GeoIP"] else [])
       ++ events (checkConnection self)
       ++ (if statsd then [TimerStop "GeoIP" "Request"] else [])
  /\ counter_adds (events (process de statsd self line)) = []
  /\ timer_calls (events (checkConnection self)) = [].
Proof.
  intros Hm.
  assert (H : forall rq sc fc, handle de self line rq sc fc = checkConnection self).
  { intros. unfold handle. now rewrite Hm. }
  destruct (events_checkConnection self) as [Hc Ht].
  split; [|split; [|split]]; [| | |exact Ht].
  - now rewrite (result_process de statsd self _ rq0 sc0 fc0), H.
  - destruct statsd.
    + rewrite process_sink, H. reflexivity.
    + rewrite process_nosink, H. simpl. now rewrite app_nil_r.
  - destruct statsd.
    + rewrite process_sink, H. unfold events at 1. simpl fst.
      simpl. now rewrite counter_adds_app, Hc.
    + now rewrite process_nosink, H.
Qed.

(** With a metrics sink, every run of [process] starts the request timer
    first and stops it last, once each, however the run ends, also when it
    raises. *)
Lemma timer_brackets_run self line :
  exists mid,
    events (process de true self line)
    = TimerStart "GeoIP" :: mid ++ [TimerStop "GeoIP" "Request"]
    /\ timer_calls mid = [].
Proof.
  exists (events (handle de self line rq0 sc0 fc0)).
  rewrite process_sink. split; [reflexivity|apply timer_calls_handle].
Qed.

(** The counters of a request whose command is GET, with a metrics sink:
    requests once, then successes or failures by how the lookup ended, and
    failures once more when the reply for a found result cannot be written;
    an exception that [except Exception] does not catch is not counted. *)
Lemma request_counters self cmd rest :
  PyStr.contains " " cmd = false ->
  PyStr.upper cmd = "GET" ->
  counter_adds (events (process de true self (request cmd rest)))
  = CounterAdd "GeoIP.request" 1 ::
    match city_outcome self (sanitize (field1 rest)) with
    | Return None => [CounterAdd "GeoIP.failure" 1]
    | Return (Some d) =>
        CounterAdd "GeoIP.success" 1 ::
        match JsonDumps.encode
                (Dict (<["addr" := PyStr (sanitize (field1 rest))]> d)) with
        | Some _ => []
        | None => [CounterAdd "GeoIP.failure" 1]
        end
    | Raise e => if is_exception e then [CounterAdd "GeoIP.failure" 1] else []
    end.
Proof.
  intros Hc Hu.
  rewrite process_sink. unfold events at 1. simpl fst.
  rewrite (handle_request de self cmd rest _ _ _ Hc Hu).
  change (counter_adds (TimerStart "GeoIP" :: ?l)) with (counter_adds l).
  rewrite counter_adds_app, counter_adds_lookup_city. simpl (counter_adds [_]).
  rewrite app_nil_r.
  destruct (city_outcome self (sanitize (field1 rest))) as [[d|]|e].
  - destruct (JsonDumps.encode
                (Dict (<["addr" := PyStr (sanitize (field1 rest))]> d)))
      as [v|] eqn:Ev.
    + now rewrite (reply_success de _ v Ev).
    + now rewrite (reply_success_raise de _ Ev).
  - reflexivity.
  - now destruct (is_exception e).
Qed.

(** C6 (as amended).  The line is split at every space: the command is the
    text before the first space, and the address is the text between the
    first space and the next one (up to the end of the line when there is
    no other space), with the whitespace around it and then every slash
    removed.  That sanitized address is the only value passed to the city
    lookup, and it is the value under the key addr of a success reply. *)
Theorem process_address_field statsd self cmd seg rest :
  PyStr.contains " " cmd = false ->
  PyStr.upper cmd = "GET" ->
  PyStr.contains " " seg = false ->
  rest = seg \/ (exists tail, rest = seg +:+ " " +:+ tail) ->
  let addr := PyStr.remove "/" (PyStr.strip seg) in
  PyStr.contains "/" addr = false
  /\ (forall a, In (CityCall a) (events (process de statsd self (request cmd rest)))
                <-> a = addr /\ geoip self <> None)
  /\ (forall d v,
        city_outcome self addr = Return (Some d) ->
        JsonDumps.encode (Dict (<["addr" := PyStr addr]> d)) = Some v ->
        result (process de statsd self (request cmd rest))
        = Return (Some (success_line v))).
Proof.
  intros Hc Hu Hseg Hrest addr.
  assert (Hf : sanitize (field1 rest) = addr).
  { destruct (field1_segment seg EmptyString Hseg) as [H1 _].
    destruct Hrest as [->|[tail ->]].
    - unfold sanitize. now rewrite H1.
    - destruct (field1_segment seg tail Hseg) as [_ H2].
      unfold sanitize. now rewrite H2. }
  split; [apply remove_absent|]. split.
  - intros a. rewrite <- Hf.
    destruct statsd.
    + rewrite process_sink. unfold events at 1. simpl fst.
      rewrite (handle_request de self cmd rest _ _ _ Hc Hu).
      rewrite <- (city_calls_lookup_city de self (sanitize (field1 rest)) rq0 sc0 fc0 a).
      simpl. rewrite in_app_iff. simpl. split.
      * intros [H|[H|[H|[]]]]; [discriminate H|exact H|discriminate H].
      * intros H. right. now left.
    + rewrite process_nosink, (handle_request de self cmd rest _ _ _ Hc Hu).
      apply city_calls_lookup_city.
  - intros d v Hcity Hv. rewrite <- Hf in Hcity, Hv.
    exact (result_request_success statsd self cmd rest d v Hc Hu Hcity Hv).
Qed.

(** C7.  For a line that is not the monitor token, a validation failure
    is returned as an error reply and not raised: a line without a space
    gives the Invalid request line, and a line with a space whose command
    (the text before the first space), put in upper case, is not GET gives
    the Invalid command line. *)
Theorem process_validation_errors statsd self line :
  PyStr.strip line <> "monitor" ->
  (PyStr.contains " " line = false ->
   result (process de statsd self line) = Return (Some line_invalid_request))
  /\ (forall cmd rest,
        line = request cmd rest ->
        PyStr.contains " " cmd = false ->
        PyStr.upper cmd <> "GET" ->
        result (process de statsd self line) = Return (Some line_invalid_command)).
Proof.
  intros Hm.
  assert (Hm' : String.eqb "monitor" (PyStr.strip line) = false).
  { apply String.eqb_neq. congruence. }
  split.
  - intros Hs. rewrite (result_process de statsd self _ rq0 sc0 fc0).
    unfold handle. rewrite Hm', Hs. simpl negb. cbv iota.
    now rewrite result_mmap, result_error, reply_invalid_request.
  - intros cmd rest -> Hc Hu.
    rewrite (result_process de statsd self _ rq0 sc0 fc0).
    rewrite (handle_request_gen de self cmd rest _ _ _ Hc Hm').
    destruct (String.eqb_spec (PyStr.upper cmd) "GET"); [contradiction|].
    now rewrite result_mmap, result_error, reply_invalid_command.
Qed.

(** C8.  For a request whose command is GET and for which the city lookup
    returns None, [process] returns the No information for site line; with
    a metrics sink the counters incremented are requests and then failures,
    once each; and a run whose lookup raises never gives that line. *)
Theorem process_no_information statsd self cmd rest :
  PyStr.contains " " cmd = false ->
  PyStr.upper cmd = "GET" ->
  city_outcome self (sanitize (field1 rest)) = Return None ->
  result (process de statsd self (request cmd rest))
  = Return (Some line_no_information)
  /\ counter_adds (events (process de true self (request cmd rest)))
     = [CounterAdd "GeoIP.request" 1; CounterAdd "GeoIP.failure" 1]
  /\ (forall self' cmd' rest' e,
        PyStr.contains " " cmd' = false ->
        PyStr.upper cmd' = "GET" ->
        city_outcome self' (sanitize (field1 rest')) = Raise e ->
        result (process de statsd self' (request cmd' rest'))
        <> Return (Some line_no_information)).
Proof.
  intros Hc Hu Hcity. split; [|split].
  - rewrite (result_process de statsd self _ rq0 sc0 fc0).
    rewrite (handle_request de self cmd rest _ _ _ Hc Hu), result_lookup_city.
    unfold lookup_result. now rewrite Hcity, reply_no_information.
  - rewrite process_sink. unfold events at 1. simpl fst.
    rewrite (handle_request de self cmd rest _ _ _ Hc Hu).
    change (counter_adds (TimerStart "GeoIP" :: ?l)) with (counter_adds l).
    rewrite counter_adds_app, counter_adds_lookup_city, Hcity. reflexivity.
  - intros self' cmd' rest' e Hc' Hu' Hcity'.
    rewrite (result_process de statsd self' _ rq0 sc0 fc0).
    rewrite (handle_request de self' cmd' rest' _ _ _ Hc' Hu'), result_lookup_city.
    unfold lookup_result. rewrite Hcity'.
    destruct (recover de (Raise e)) as [r|e'] eqn:E; [|discriminate].
    apply recover_raise_shape in E as [tail ->].
    unfold line_no_information, error_line, dq. norm_str. discriminate.
Qed.

(** C9.  The Missing address branch cannot be taken: the value bound to
    the address is never None; no line, backend or configuration makes
    [process] return the Missing address line; and the line made of GET and
    one space passes the empty string to the backend. *)
Theorem missing_address_unreachable :
  (forall item, extract_addr item <> None)
  /\ (forall statsd self line,
        result (process de statsd self line) <> Return (Some line_missing_address))
  /\ (forall statsd debug g,
        In (CityCall EmptyString)
           (events (process de statsd {| config_DEBUG := debug; geoip := Some g |}
                      "GET "))).
Proof.
  split; [discriminate|]. split.
  - intros statsd self line.
    rewrite (result_process de statsd self _ rq0 sc0 fc0).
    destruct (handle_cases de self line)
      as [[_ H]|[[_ H]|[(cmd & rest & _ & _ & _ & H)|(cmd & rest & _ & _ & _ & H)]]];
      rewrite H.
    + rewrite result_checkConnection.
      destruct (country_outcome self "mozilla.org") as [cc|e].
      * destruct (is_US cc); discriminate.
      * destruct (is_exception e); [|discriminate].
        destruct (py_str e); discriminate.
    + rewrite result_mmap, result_error, reply_invalid_request. discriminate.
    + rewrite result_lookup_city.
      destruct (lookup_result de self _) as [r|e] eqn:E; [|discriminate].
      apply lookup_result_cases in E
        as (s & -> & [->|[(d & v & _ & _ & ->)|[tail ->]]]).
      * discriminate.
      * unfold success_line, line_missing_address, error_line, dq.
        norm_str. discriminate.
      * unfold line_missing_address, error_line, dq. norm_str. discriminate.
    + rewrite result_mmap, result_error, reply_invalid_command. discriminate.
  - intros statsd debug g.
    set (self := {| config_DEBUG := debug; geoip := Some g |}).
    assert (E : forall rq sc fc,
      handle de self "GET " rq sc fc = lookup_city de self EmptyString rq sc fc).
    { intros. exact (handle_request de self "GET" EmptyString _ _ _ eq_refl eq_refl). }
    assert (Hin : forall rq sc fc,
      In (CityCall EmptyString) (events (lookup_city de self EmptyString rq sc fc))).
    { intros. apply city_calls_lookup_city. split; [reflexivity|discriminate]. }
    destruct statsd.
    + rewrite process_sink, E. unfold events at 1. cbn [fst].
      right. apply in_or_app. left. apply Hin.
    + rewrite process_nosink, E. apply Hin.
Qed.

(** C10.  For one line and one backend, [process] ends the same way, with
    the same reply line, whether a metrics sink is configured or not. *)
Theorem process_reply_independent_of_sink self line :
  result (process de true self line) = result (process de false self line).
Proof.
  rewrite (result_process de true self line rq0 sc0 fc0).
  now rewrite (result_process de false self line rq0 sc0 fc0).
Qed.

(** What the health check answers, by what the country lookup of
    mozilla.org does: the code US gives the 200 line; an exception that
    [except Exception] catches and whose [str] returns gives the 500 line,
    one whose [str] raises leaves with that second exception, and one that
    is not caught leaves as it is. *)
Lemma process_monitor_reply statsd self line :
  PyStr.strip line = "monitor" ->
  result (process de statsd self line) =
  match country_outcome self "mozilla.org" with
  | Return (Some cc) =>
      if String.eqb cc "US" then Return (Some ("200 OK" +:+ nl)) else Return None
  | Return None => Return None
  | Raise e =>
      if is_exception e then
        match py_str e with
        | Return _ => Return (Some ("500 Error" +:+ nl))
        | Raise e' => Raise e'
        end
      else Raise e
  end.
Proof.
  intros Hm. rewrite (result_process de statsd self _ rq0 sc0 fc0).
  unfold handle. rewrite Hm. simpl String.eqb. cbv iota.
  rewrite result_checkConnection.
  now destruct (country_outcome self "mozilla.org") as [[cc|]|e].
Qed.

End Claims.

(** * Concrete runs *)

(** C1.  The claim fails on this run: the line is GET bad and the lookup
    raises an exception whose message is the single byte 0xff.  The
    [except] clause of the inner [try] catches it, counts a failure and
    builds the Unknown Exception reply, but [json.dumps] cannot decode the
    message and raises in its turn, inside the clause: [process] raises
    instead of returning an error line (the timer is stopped on the way
    out). *)
Theorem process_backend_exception_escapes :
  city_outcome Stub.server (sanitize (field1 ("bad" +:+ nl)))
  = Raise (Exc Stub.byte_ff)
  /\ process Stub.dumps_error true Stub.server (request "GET" ("bad" +:+ nl))
     = ([TimerStart "GeoIP"; CounterAdd "GeoIP.request" 1; CityCall "bad";
         CounterAdd "GeoIP.failure" 1; TimerStop "GeoIP" "Request"],
        Raise (Exc "'utf8' codec can't decode byte 0xff in position 19: invalid start byte")).
Proof. split; reflexivity. Qed.

(** The catch-all clause on a run where it works: the message is ASCII. *)
Lemma backend_exception_reply_run :
  (PyStr.contains " " "GET" = false
   /\ PyStr.upper "GET" = "GET"
   /\ city_outcome Stub.server (sanitize (field1 ("boom" +:+ nl)))
      = Raise (Exc "lookup failed")
   /\ is_exception (Exc "lookup failed") = true
   /\ py_str (Exc "lookup failed") = Return "lookup failed"
   /\ Json.code_points "lookup failed" = Some (Json.bytes_of "lookup failed"))
  /\ result (process Stub.dumps_error true Stub.server (request "GET" ("boom" +:+ nl)))
     = Return (Some (line_unknown_exception (Json.bytes_of "lookup failed"))).
Proof.
  split; [repeat split|].
  apply (backend_exception_reply Stub.dumps_error true Stub.server
           "GET" ("boom" +:+ nl) (Exc "lookup failed") "lookup failed");
    reflexivity.
Defined.

(** C2, a run where the claim as first stated fails: the lookup returns a
    mapping whose city is a name in ISO-8859-1; [json.dumps] cannot write it
    and the reply is the Unknown Exception error line, not a success line. *)
Lemma process_success_not_serialisable :
  city_outcome Stub.server (sanitize (field1 ("200.1.2.3" +:+ nl)))
  = Return (Some {["city" := PyStr Stub.sao_paulo]})
  /\ JsonDumps.encode
       (Dict (<["addr" := PyStr "200.1.2.3"]> {["city" := PyStr Stub.sao_paulo]}))
     = None
  /\ result (process Stub.dumps_error false Stub.server
               (request "GET" ("200.1.2.3" +:+ nl)))
     = Return (Some (line_unknown_exception (Json.bytes_of
         "'utf8' codec can't decode byte 0xe3 in position 1: invalid continuation byte"))).
Proof. repeat split; reflexivity. Qed.

(** C2 on a concrete run. *)
Lemma process_success_reply_witness :
  exists v,
    (PyStr.contains " " "GET" = false
     /\ PyStr.upper "GET" = "GET"
     /\ city_outcome Stub.server (sanitize (field1 ("8.8.8.8" +:+ nl)))
        = Return (Some Stub.mountain_view)
     /\ JsonDumps.encode (Dict (<["addr" := PyStr "8.8.8.8"]> Stub.mountain_view))
        = Some v)
    /\ result (process Stub.dumps_error true Stub.server
                 (request "GET" ("8.8.8.8" +:+ nl)))
       = Return (Some (success_line v)).
Proof.
  eexists. split; [repeat split; reflexivity|].
  apply (process_success_reply Stub.dumps_error true Stub.server
           "GET" ("8.8.8.8" +:+ nl) Stub.mountain_view);
    reflexivity.
Defined.

(** C3, the failing input: the line monitor with a backend whose country
    lookup of mozilla.org answers CA without raising.  [process] returns
    None: neither the 200 line nor the 500 line. *)
Theorem process_monitor_country_mismatch :
  process Stub.dumps_error true Stub.server_ca ("monitor" +:+ nl)
  = ([TimerStart "GeoIP"; CountryCodeCall "mozilla.org"; TimerStop "GeoIP" "Request"],
     Return None).
Proof. reflexivity. Qed.

(** C4, a run where the claim as first stated fails: with a metrics sink,
    the monitor line starts and stops the request timer. *)
Lemma process_monitor_touches_timer :
  PyStr.strip ("monitor" +:+ nl) = "monitor"
  /\ timer_calls (events (process Stub.dumps_error true Stub.server ("monitor" +:+ nl)))
     = [TimerStart "GeoIP"; TimerStop "GeoIP" "Request"].
Proof. split; reflexivity. Qed.

(** C4 on a concrete run. *)
Lemma process_monitor_delegates_witness :
  PyStr.strip ("monitor" +:+ nl) = "monitor"
  /\ result (process Stub.dumps_error true Stub.server ("monitor" +:+ nl))
     = result (checkConnection Stub.server).
Proof.
  split; [reflexivity|].
  apply (process_monitor_delegates Stub.dumps_error true Stub.server ("monitor" +:+ nl)).
  reflexivity.
Defined.

(** C5.  The claim fails on this run: the line is GET 200.1.2.3 and the
    lookup returns a mapping whose city is a name in ISO-8859-1.  Successes
    is incremented before the reply is written; [json.dumps] then raises,
    the [except] clause of the same [try] increments failures, and the
    reply is an error line: one request is counted as a success and as a
    failure. *)
Theorem process_counts_success_and_failure :
  city_outcome Stub.server (sanitize (field1 ("200.1.2.3" +:+ nl)))
  = Return (Some {["city" := PyStr Stub.sao_paulo]})
  /\ process Stub.dumps_error true Stub.server (request "GET" ("200.1.2.3" +:+ nl))
     = ([TimerStart "GeoIP"; CounterAdd "GeoIP.request" 1; CityCall "200.1.2.3";
         CounterAdd "GeoIP.success" 1; CounterAdd "GeoIP.failure" 1;
         TimerStop "GeoIP" "Request"],
        Return (Some (line_unknown_exception (Json.bytes_of
          "'utf8' codec can't decode byte 0xe3 in position 1: invalid continuation byte"))))
  /\ counter_adds (events (process Stub.dumps_error true Stub.server
                             (request "GET" ("200.1.2.3" +:+ nl))))
     = [CounterAdd "GeoIP.request" 1; CounterAdd "GeoIP.success" 1;
        CounterAdd "GeoIP.failure" 1].
Proof. repeat split; reflexivity. Qed.

(** The sibling paths count one outcome: a found result that can be
    written counts a success only, and a lookup that finds nothing or
    raises counts a failure only. *)
Example request_counters_runs :
  counter_adds (events (process Stub.dumps_error true Stub.server
                          (request "GET" ("8.8.8.8" +:+ nl))))
  = [CounterAdd "GeoIP.request" 1; CounterAdd "GeoIP.success" 1]
  /\ counter_adds (events (process Stub.dumps_error true Stub.server
                             (request "GET" ("10.0.0.1" +:+ nl))))
     = [CounterAdd "GeoIP.request" 1; CounterAdd "GeoIP.failure" 1]
  /\ counter_adds (events (process Stub.dumps_error true Stub.server
                             (request "GET" ("boom" +:+ nl))))
     = [CounterAdd "GeoIP.request" 1; CounterAdd "GeoIP.failure" 1].
Proof.
  repeat split;
    (rewrite request_counters; [reflexivity|reflexivity|reflexivity]).
Qed.

(** On a plain request the two readings of the address agree. *)
Example address_plain_request :
  Spec.address ("GET 8.8/.8.8" +:+ nl) = "8.8.8.8"
  /\ sanitize (field1 ("8.8/.8.8" +:+ nl)) = "8.8.8.8".
Proof. split; reflexivity. Qed.

(** With no handle every lookup fails in the same way, and the failure is
    reported, not raised: the degraded state of the service. *)
Example process_without_handle :
  process Stub.dumps_error true Stub.server_down ("GET 8.8.8.8" +:+ nl)
  = ([TimerStart "GeoIP"; CounterAdd "GeoIP.request" 1; CounterAdd "GeoIP.failure" 1;
      LogError ("GEOIP: " +:+ msg_unknown_exception
                  "GeoServer instance has no attribute 'geoip'");
      LogInfo ("Returning: {" +:+ dq +:+ "error" +:+ dq +:+ ": " +:+ dq
               +:+ "Unknown Exception " +:+ bsl +:+ dq
               +:+ "GeoServer instance has no attribute 'geoip'"
               +:+ bsl +:+ dq +:+ dq +:+ "}");
      TimerStop "GeoIP" "Request"],
     Return (Some (line_unknown_exception
                     (Json.bytes_of "GeoServer instance has no attribute 'geoip'")))).
Proof. reflexivity. Qed.

(** C6, a line where the claim as first stated fails: with two spaces
    after the command, the first whitespace-delimited token of the rest is
    8.8.8.8, but the backend is asked for the empty string. *)
Lemma address_not_first_token :
  Spec.address "GET  8.8.8.8" = "8.8.8.8"
  /\ events (process Stub.dumps_error false Stub.server "GET  8.8.8.8")
     = [CityCall EmptyString]
  /\ ~ In (CityCall (Spec.address "GET  8.8.8.8"))
          (events (process Stub.dumps_error false Stub.server "GET  8.8.8.8")).
Proof.
  split; [reflexivity|]. split; [reflexivity|].
  intros [H|[]]. discriminate H.
Qed.

(** C6 on a concrete run. *)
Lemma process_address_field_witness :
  (PyStr.contains " " "get" = false
   /\ PyStr.upper "get" = "GET"
   /\ PyStr.contains " " "/8.8.8.8/" = false)
  /\ In (CityCall "8.8.8.8")
        (events (process Stub.dumps_error true Stub.server
                   (request "get" ("/8.8.8.8/" +:+ " " +:+ "x")))).
Proof.
  split; [repeat split|].
  apply (proj1 (proj2 (process_address_field Stub.dumps_error true Stub.server
           "get" "/8.8.8.8/" ("/8.8.8.8/" +:+ " " +:+ "x")
           eq_refl eq_refl eq_refl (or_intror (ex_intro _ "x" eq_refl))))).
  split; [reflexivity|discriminate].
Defined.

(** C7 on a concrete run. *)
Lemma process_validation_errors_witness :
  (PyStr.strip "PUT 8.8.8.8" <> "monitor"
   /\ PyStr.contains " " "GET" = false
   /\ PyStr.upper "PUT" <> "GET")
  /\ result (process Stub.dumps_error true Stub.server "GET")
     = Return (Some line_invalid_request)
  /\ result (process Stub.dumps_error true Stub.server "PUT 8.8.8.8")
     = Return (Some line_invalid_command).
Proof.
  split; [repeat split; (discriminate || reflexivity)|]. split.
  - apply (proj1 (process_validation_errors Stub.dumps_error true Stub.server "GET"
                    ltac:(discriminate))).
    reflexivity.
  - apply (proj2 (process_validation_errors Stub.dumps_error true Stub.server
                    "PUT 8.8.8.8" ltac:(discriminate)) "PUT" "8.8.8.8");
      [reflexivity|reflexivity|discriminate].
Defined.

(** C8 on a concrete run. *)
Lemma process_no_information_witness :
  (PyStr.contains " " "GET" = false
   /\ PyStr.upper "GET" = "GET"
   /\ city_outcome Stub.server (sanitize (field1 ("10.0.0.1" +:+ nl))) = Return None)
  /\ result (process Stub.dumps_error true Stub.server
               (request "GET" ("10.0.0.1" +:+ nl)))
     = Return (Some line_no_information).
Proof.
  split; [repeat split|].
  apply (process_no_information Stub.dumps_error true Stub.server
           "GET" ("10.0.0.1" +:+ nl));
    reflexivity.
Defined.

(** * Further properties of the handler *)

Section MoreStrLemmas.
Import PyStr.

Lemma contains_lstrip c s : contains c s = false -> contains c (lstrip s) = false.
Proof.
  induction s as [|d s IH]; [reflexivity|].
  rewrite contains_cons. intros H. apply orb_false_elim in H as [Hd Hs].
  simpl lstrip. destruct (isspace d); [auto|].
  now rewrite contains_cons, Hd, Hs.
Qed.

Lemma contains_rstrip c s : contains c s = false -> contains c (rstrip s) = false.
Proof.
  induction s as [|d s IH]; [reflexivity|].
  rewrite contains_cons. intros H. apply orb_false_elim in H as [Hd Hs].
  specialize (IH Hs). simpl rstrip. destruct (rstrip s) as [|x r].
  - destruct (isspace d); [reflexivity|]. now rewrite contains_cons, Hd.
  - now rewrite contains_cons, Hd, IH.
Qed.

Lemma contains_remove c d s : contains c s = false -> contains c (remove d s) = false.
Proof.
  induction s as [|x s IH]; [reflexivity|].
  rewrite contains_cons. intros H. apply orb_false_elim in H as [Hx Hs].
  simpl remove. destruct (Ascii.eqb x d); [auto|].
  now rewrite contains_cons, Hx, IH.
Qed.

(** The first field of a split holds no separator. *)
Lemma split_head_no_sep sep s : contains sep (hd EmptyString (split sep s)) = false.
Proof.
  induction s as [|c s IH]; [reflexivity|].
  rewrite split_cons. destruct (Ascii.eqb c sep) eqn:E; [reflexivity|].
  destruct (split sep s) as [|f fs]; simpl hd in *;
    rewrite contains_cons, Ascii.eqb_sym, E; [reflexivity|exact IH].
Qed.

Lemma sanitize_clean item :
  contains " " item = false ->
  contains " " (sanitize item) = false /\ contains "/" (sanitize item) = false.
Proof.
  intros H. unfold sanitize, strip. split; [|apply remove_absent].
  now apply contains_remove, contains_rstrip, contains_lstrip.
Qed.

End MoreStrLemmas.

Section MoreHandleLemmas.
Variable de : string -> pyobj -> string.

(** The four ways through the outer [try] are chosen by the line alone. *)
Lemma handle_by_line line :
  (PyStr.strip line = "monitor" /\
   forall self rq sc fc, handle de self line rq sc fc = checkConnection self)
  \/ (PyStr.strip line <> "monitor" /\ PyStr.contains " " line = false /\
      forall self rq sc fc,
        handle de self line rq sc fc = mmap Some (_error de self msg_invalid_request))
  \/ (exists cmd rest,
        PyStr.strip line <> "monitor" /\
        line = request cmd rest /\ PyStr.contains " " cmd = false /\
        PyStr.upper cmd = "GET" /\
        forall self rq sc fc,
          handle de self line rq sc fc
          = lookup_city de self (sanitize (field1 rest)) rq sc fc)
  \/ (exists cmd rest,
        PyStr.strip line <> "monitor" /\
        line = request cmd rest /\ PyStr.contains " " cmd = false /\
        PyStr.upper cmd <> "GET" /\
        forall self rq sc fc,
          handle de self line rq sc fc
          = mmap Some (_error de self msg_invalid_command)).
Proof.
  destruct (String.eqb_spec "monitor" (PyStr.strip line)) as [Hm|Hm].
  { left. split; [congruence|]. intros. unfold handle. now rewrite <- Hm. }
  assert (Hm' : String.eqb "monitor" (PyStr.strip line) = false)
    by now apply String.eqb_neq.
  assert (Hne : PyStr.strip line <> "monitor") by congruence.
  destruct (PyStr.contains " " line) eqn:Hs.
  2:{ right. left. repeat split; auto. intros. unfold handle. now rewrite Hm', Hs. }
  destruct (contains_request_inv line Hs) as (cmd & rest & -> & Hc).
  destruct (String.eqb_spec (PyStr.upper cmd) "GET") as [Hu|Hu].
  - right. right. left. exists cmd, rest. repeat split; auto.
    intros. now apply handle_request.
  - right. right. right. exists cmd, rest. repeat split; auto.
    intros. rewrite (handle_request_gen de _ _ _ _ _ _ Hc Hm').
    now destruct (String.eqb_spec (PyStr.upper cmd) "GET").
Qed.

(** A run of [process], by the run of the outer [try]. *)
Lemma events_process statsd self line :
  exists rq sc fc,
    events (process de statsd self line)
    = (if statsd then [TimerStart "GeoIP"] else [])
      ++ events (handle de self line rq sc fc)
      ++ (if statsd then [TimerStop "GeoIP" "Request"] else [])
    /\ (if statsd then rq = rq0 /\ sc = sc0 /\ fc = fc0
        else rq = Local 0 /\ sc = Local 0 /\ fc = Local 0).
Proof.
  destruct statsd.
  - exists rq0, sc0, fc0. rewrite process_sink. now split.
  - exists (Local 0), (Local 0), (Local 0). rewrite process_nosink.
    split; [|now repeat split]. simpl. now rewrite app_nil_r.
Qed.

End MoreHandleLemmas.

Section EventLemmas.
Variable de : string -> pyobj -> string.

Ltac fin_app :=
  repeat (rewrite <- List.app_assoc); simpl; rewrite ?app_nil_r; reflexivity.

(** What the inner [try] emits, entry by entry. *)
Lemma events_lookup_city_exact self addr rq sc fc :
  events (lookup_city de self addr rq sc fc) =
  adds rq 1 ++ calls self addr ++
  match city_outcome self addr with
  | Return None => adds fc 1 ++ events (_error de self msg_no_information)
  | Return (Some d) =>
      adds sc 1
      ++ events (_return de self "success" (Dict (<["addr" := PyStr addr]> d)))
      ++ match reply_line de "success" (Dict (<["addr" := PyStr addr]> d)) with
         | Return _ => []
         | Raise e => adds fc 1 ++ clause_log de self e
         end
  | Raise e => if is_exception e then adds fc 1 ++ clause_log de self e else []
  end.
Proof.
  unfold lookup_city. rewrite events_try_except, lookup_body.
  unfold events at 1. unfold result at 1. cbn [fst snd].
  destruct (city_outcome self addr) as [[d|]|e].
  - unfold reply_line.
    destruct (JsonDumps.dumps1 "success" _) as [t|].
    + fin_app.
    + simpl is_exception. cbv iota. rewrite events_except_clause.
      unfold clause_log. fin_app.
  - fin_app.
  - destruct (is_exception e).
    + rewrite events_except_clause. unfold clause_log. fin_app.
    + fin_app.
Qed.

Lemma events_return_nodebug self label obj :
  config_DEBUG self = false -> events (_return de self label obj) = [].
Proof.
  intros H. unfold _return, when_debug. rewrite H.
  now destruct (JsonDumps.dumps1 label obj).
Qed.

Lemma events_error_nodebug self m :
  config_DEBUG self = false -> events (_error de self m) = [].
Proof.
  intros H. unfold _error. rewrite events_bind.
  unfold when_debug. rewrite H. simpl.
  destruct (JsonDumps.dumps1 "error" (Val (PyStr m))) eqn:E;
    now rewrite events_return_nodebug.
Qed.

Lemma clause_log_nodebug self e :
  config_DEBUG self = false -> clause_log de self e = [].
Proof.
  intros H. unfold clause_log.
  destruct (py_str e); [now apply events_error_nodebug|reflexivity].
Qed.

Lemma quiet_calls l : quiet l -> List.filter is_call l = [].
Proof.
  induction 1 as [|ev l Hev _ IH]; [reflexivity|].
  simpl. destruct ev; try discriminate Hev; exact IH.
Qed.

Lemma quiet_non_log l : quiet l -> non_log l = [].
Proof.
  induction 1 as [|ev l Hev _ IH]; [reflexivity|].
  unfold non_log. simpl. rewrite Hev. exact IH.
Qed.

Lemma non_log_app l1 l2 : non_log (l1 ++ l2) = non_log l1 ++ non_log l2.
Proof. apply List.filter_app. Qed.

Lemma non_log_adds c k : non_log (adds c k) = adds c k.
Proof. now destruct c. Qed.

Lemma calls_adds c k : List.filter is_call (adds c k) = [].
Proof. now destruct c. Qed.

Lemma non_log_calls self a : non_log (calls self a) = calls self a.
Proof. unfold calls. now destruct (geoip self). Qed.

Lemma calls_calls self a : List.filter is_call (calls self a) = calls self a.
Proof. unfold calls. now destruct (geoip self). Qed.

(** The backend calls of the inner [try]: the one city lookup. *)
Lemma calls_lookup_city self addr rq sc fc :
  List.filter is_call (events (lookup_city de self addr rq sc fc)) = calls self addr.
Proof.
  destruct (events_lookup_city de self addr rq sc fc) as (L1 & L2 & Q1 & Q2 & ->).
  rewrite !List.filter_app, calls_adds, calls_calls. simpl app.
  rewrite <- (app_nil_r (calls self addr)) at 2. f_equal.
  destruct (city_outcome self addr) as [[d|]|e]; [| |destruct (is_exception e)];
    rewrite ?List.filter_app, ?calls_adds, ?(quiet_calls _ Q1); try reflexivity.
  destruct (reply_line de "success" _); [reflexivity|].
  now rewrite List.filter_app, calls_adds, (quiet_calls _ Q2).
Qed.

Lemma calls_checkConnection self :
  List.filter is_call (events (checkConnection self)) =
  match geoip self with Some _ => [CountryCodeCall "mozilla.org"] | None => [] end.
Proof.
  rewrite events_checkConnection_full.
  destruct (geoip self) as [g|]; [|reflexivity].
  simpl. destruct (country_code g "mozilla.org") as [cc|e]; [reflexivity|].
  destruct (is_exception e); [|reflexivity]. now destruct (py_str e).
Qed.

(** The backend calls of a run are those of the outer [try]. *)
Lemma calls_process statsd self line :
  exists rq sc fc,
    List.filter is_call (events (process de statsd self line))
    = List.filter is_call (events (handle de self line rq sc fc)).
Proof.
  destruct (events_process de statsd self line) as (rq & sc & fc & -> & _).
  exists rq, sc, fc. rewrite !List.filter_app.
  destruct statsd; simpl; now rewrite app_nil_r.
Qed.

End EventLemmas.

Section Extras1.
Variable de : string -> pyobj -> string.

(** X3.  A line that fails validation (no space, or a command that is not GET)
    costs nothing: no counter is incremented and the backend is not called;
    the only metric is the request timer, started and stopped once when
    there is a sink. *)
Theorem validation_failure_silent statsd self line :
  PyStr.strip line <> "monitor" ->
  PyStr.contains " " line = false
  \/ (exists cmd rest, line = request cmd rest /\ PyStr.contains " " cmd = false
                       /\ PyStr.upper cmd <> "GET") ->
  counter_adds (events (process de statsd self line)) = []
  /\ List.filter is_call (events (process de statsd self line)) = []
  /\ timer_calls (events (process de statsd self line))
     = if statsd then [TimerStart "GeoIP"; TimerStop "GeoIP" "Request"] else [].
Proof.
  intros Hm Hbad.
  assert (Hm' : String.eqb "monitor" (PyStr.strip line) = false).
  { apply String.eqb_neq. congruence. }
  assert (H : exists m, forall rq sc fc,
             handle de self line rq sc fc = mmap Some (_error de self m)).
  { destruct Hbad as [Hs|(cmd & rest & -> & Hc & Hu)].
    - exists msg_invalid_request. intros. unfold handle. now rewrite Hm', Hs.
    - exists msg_invalid_command. intros.
      rewrite (handle_request_gen de _ _ _ _ _ _ Hc Hm').
      now destruct (String.eqb_spec (PyStr.upper cmd) "GET"). }
  destruct H as [m H].
  destruct (events_process de statsd self line) as (rq & sc & fc & -> & _).
  rewrite H, events_mmap.
  pose proof (quiet_error de self m) as Q.
  rewrite !counter_adds_app, !List.filter_app, !timer_calls_app.
  rewrite (quiet_counter_adds _ Q), (quiet_calls _ Q), (quiet_timer_calls _ Q).
  destruct statsd; repeat split; reflexivity.
Qed.

(** X6.  Whatever the line, the address given to the city lookup holds no space
    and no slash. *)
Theorem backend_address_clean statsd self line a :
  In (CityCall a) (events (process de statsd self line)) ->
  PyStr.contains " " a = false /\ PyStr.contains "/" a = false.
Proof.
  intros Hin.
  assert (Hc : In (CityCall a) (List.filter is_call (events (process de statsd self line)))).
  { apply List.filter_In. now split. }
  destruct (calls_process de statsd self line) as (rq & sc & fc & E).
  rewrite E in Hc. clear E Hin.
  destruct (handle_by_line de line)
    as [[_ H]|[(_ & _ & H)|[(cmd & rest & _ & _ & _ & _ & H)
                           |(cmd & rest & _ & _ & _ & _ & H)]]];
    rewrite H in Hc.
  - rewrite calls_checkConnection in Hc.
    destruct (geoip self); [|destruct Hc]. destruct Hc as [Hc|[]]. discriminate Hc.
  - rewrite events_mmap, (quiet_calls _ (quiet_error de self _)) in Hc. destruct Hc.
  - rewrite calls_lookup_city in Hc. unfold calls in Hc.
    destruct (geoip self); [|destruct Hc]. destruct Hc as [[= <-]|[]].
    apply sanitize_clean. unfold field1. apply split_head_no_sep.
  - rewrite events_mmap, (quiet_calls _ (quiet_error de self _)) in Hc. destruct Hc.
Qed.

(** X7.  One line costs at most one call to the backend, nothing is retried: the
    monitor line asks only for the country of mozilla.org, and any other
    line asks at most for one city. *)
Theorem one_backend_call statsd self line :
  length (List.filter is_call (events (process de statsd self line))) <= 1
  /\ (forall q, In (CountryCodeCall q) (events (process de statsd self line)) ->
                q = "mozilla.org" /\ PyStr.strip line = "monitor")
  /\ (forall a, In (CityCall a) (events (process de statsd self line)) ->
                PyStr.strip line <> "monitor").
Proof.
  assert (HinC : forall q, In (CountryCodeCall q) (events (process de statsd self line)) ->
            In (CountryCodeCall q)
               (List.filter is_call (events (process de statsd self line)))).
  { intros q H. apply List.filter_In. now split. }
  assert (HinA : forall a, In (CityCall a) (events (process de statsd self line)) ->
            In (CityCall a)
               (List.filter is_call (events (process de statsd self line)))).
  { intros a H. apply List.filter_In. now split. }
  destruct (calls_process de statsd self line) as (rq & sc & fc & E).
  rewrite E in *. clear E.
  assert (Hnil : List.filter is_call (events (handle de self line rq sc fc)) = [] ->
    length (List.filter is_call (events (handle de self line rq sc fc))) <= 1
    /\ (forall q, In (CountryCodeCall q) (events (process de statsd self line)) ->
                  q = "mozilla.org" /\ PyStr.strip line = "monitor")
    /\ (forall a, In (CityCall a) (events (process de statsd self line)) ->
                  PyStr.strip line <> "monitor")).
  { intros E. rewrite E in *. split; [simpl; lia|].
    split; intros x Hx; [apply HinC in Hx|apply HinA in Hx]; destruct Hx. }
  destruct (handle_by_line de line)
    as [[Hm H]|[(Hm & _ & H)|[(cmd & rest & Hm & _ & _ & _ & H)
                             |(cmd & rest & Hm & _ & _ & _ & H)]]];
    rewrite H in *.
  - rewrite calls_checkConnection in *. destruct (geoip self); [|now apply Hnil].
    split; [simpl; lia|]. split.
    + intros q Hq. apply HinC in Hq as [[= <-]|[]]. now split.
    + intros a Ha. apply HinA in Ha as [Ha|[]]. discriminate Ha.
  - apply Hnil. now rewrite events_mmap, (quiet_calls _ (quiet_error de self _)).
  - rewrite calls_lookup_city in *. unfold calls in *.
    destruct (geoip self); [|now apply Hnil].
    split; [simpl; lia|]. split.
    + intros q Hq. apply HinC in Hq as [Hq|[]]. discriminate Hq.
    + intros a _. exact Hm.
  - apply Hnil. now rewrite events_mmap, (quiet_calls _ (quiet_error de self _)).
Qed.

(** X8.  With no metrics sink ([statsd] is [None]) a run emits no timer call
    and no counter increment, whatever the line and the backend. *)
Theorem no_sink_no_metrics self line :
  timer_calls (events (process de false self line)) = []
  /\ counter_adds (events (process de false self line)) = [].
Proof.
  rewrite process_nosink. split; [apply timer_calls_handle|].
  destruct (handle_by_line de line)
    as [[_ H]|[(_ & _ & H)|[(cmd & rest & _ & _ & _ & _ & H)
                           |(cmd & rest & _ & _ & _ & _ & H)]]];
    rewrite H.
  - apply events_checkConnection.
  - rewrite events_mmap. apply quiet_counter_adds, quiet_error.
  - rewrite counter_adds_lookup_city. simpl.
    destruct (city_outcome self _) as [[d|]|e]; try reflexivity.
    + now destruct (reply_line de "success" _).
    + now destruct (is_exception e).
  - rewrite events_mmap. apply quiet_counter_adds, quiet_error.
Qed.

End Extras1.

Section Printable.
Import Json JsonDumps.

Lemma printable_app a b : printable (a +:+ b) = printable a && printable b.
Proof.
  induction a as [|c a IH]; [reflexivity|].
  rewrite sapp_cons. simpl. now rewrite IH, andb_assoc.
Qed.

Lemma printable_no_line_feed t :
  printable t = true -> PyStr.contains "010"%char t = false.
Proof.
  induction t as [|c t IH]; [reflexivity|].
  simpl printable. intros H. apply andb_prop in H as [Hc Ht].
  rewrite contains_cons, (IH Ht), orb_false_r.
  destruct (Ascii.eqb_spec "010"%char c) as [<-|]; [discriminate Hc|reflexivity].
Qed.

Lemma printable_byte_of_N n :
  (32 <= n <= 126)%N -> printable_byte (ascii_of_N n) = true.
Proof.
  intros H. unfold printable_byte. rewrite N_ascii_embedding by lia.
  apply andb_true_intro. split; apply N.leb_le; lia.
Qed.

Lemma hex_digit_printable k : (k < 16)%N -> printable_byte (hex_digit k) = true.
Proof.
  intros H. unfold hex_digit.
  destruct (k <? 10)%N eqn:E; apply printable_byte_of_N;
    [apply N.ltb_lt in E|apply N.ltb_ge in E]; lia.
Qed.

Lemma u_escape_printable n : printable (u_escape n) = true.
Proof.
  unfold u_escape. simpl.
  rewrite !hex_digit_printable by (apply N.mod_lt; discriminate).
  reflexivity.
Qed.

Lemma escape_char_printable n : printable (escape_char n) = true.
Proof.
  unfold escape_char.
  repeat match goal with
         | |- printable (if ?c then _ else _) = true => destruct c eqn:?
         end; try reflexivity.
  - simpl. rewrite printable_byte_of_N; [reflexivity|].
    apply andb_prop in Heqb6 as [H1 H2].
    apply N.leb_le in H1. apply N.leb_le in H2. lia.
  - apply u_escape_printable.
  - cbv zeta. now rewrite printable_app, !u_escape_printable.
Qed.

Lemma escape_all_printable cs : printable (escape_all cs) = true.
Proof.
  induction cs as [|c cs IH]; [reflexivity|].
  simpl. now rewrite printable_app, escape_char_printable, IH.
Qed.

(** [ensure_ascii]: a string is written in printable ASCII only. *)
Lemma encode_basestring_printable s t :
  encode_basestring_ascii s = Some t -> printable t = true.
Proof.
  unfold encode_basestring_ascii.
  destruct (code_points s) as [cs|]; [|discriminate].
  simpl. intros [= <-]. unfold quote.
  now rewrite !printable_app, escape_all_printable.
Qed.

Lemma string_of_uint_printable d : printable (NilEmpty.string_of_uint d) = true.
Proof. induction d; simpl; auto. Qed.

Lemma Z_to_string_printable z : printable (Z_to_string z) = true.
Proof.
  unfold Z_to_string. destruct (Z.to_int z); simpl;
    now rewrite string_of_uint_printable.
Qed.

Lemma encode_val_printable v t :
  val_printable v = true -> encode_val v = Some t -> printable t = true.
Proof.
  destruct v; simpl; intros Hv.
  - now intros [= <-].
  - intros [= <-]. apply Z_to_string_printable.
  - now intros [= <-].
  - apply encode_basestring_printable.
  - intros [= <-]. unfold quote. now rewrite !printable_app, escape_all_printable.
Qed.

Lemma join_printable sep l :
  printable sep = true -> Forall (fun s => printable s = true) l ->
  printable (join sep l) = true.
Proof.
  intros Hsep. induction 1 as [|x l Hx Hl IH]; [reflexivity|].
  simpl. destruct l; [exact Hx|].
  now rewrite !printable_app, Hx, Hsep, IH.
Qed.

Lemma encode_dict_printable (d : gmap string pyval) t :
  map_Forall (fun _ v => val_printable v = true) d ->
  encode_dict d = Some t -> printable t = true.
Proof.
  intros Hd. unfold encode_dict.
  destruct (mapM encode_item (map_to_list d)) as [items|] eqn:E; [|discriminate].
  simpl. intros [= <-].
  rewrite !printable_app. simpl. rewrite andb_true_r.
  apply join_printable; [reflexivity|].
  apply mapM_Some_1 in E.
  assert (Hl : Forall (fun kv => val_printable kv.2 = true) (map_to_list d)).
  { apply Forall_forall. intros [k v] Hkv. apply elem_of_map_to_list in Hkv.
    exact (Hd k v Hkv). }
  clear Hd. induction E as [|kv s l items Hs _ IH]; [constructor|].
  apply Forall_cons in Hl as [Hv Hl]. constructor; [|auto].
  unfold encode_item in Hs.
  destruct (encode_basestring_ascii kv.1) as [k|] eqn:Ek; [|discriminate].
  destruct (encode_val kv.2) as [v|] eqn:Ev; [|discriminate].
  simpl in Hs. injection Hs as <-.
  rewrite !printable_app, (encode_basestring_printable _ _ Ek),
    (encode_val_printable _ _ Hv Ev). reflexivity.
Qed.

Lemma reply_line_printable de label obj r :
  obj_printable obj ->
  reply_line de label obj = Return r ->
  exists t, r = t +:+ nl /\ printable t = true.
Proof.
  intros Ho. unfold reply_line, dumps1.
  destruct (encode_basestring_ascii label) as [k|] eqn:Ek; [|discriminate].
  destruct (encode obj) as [v|] eqn:Ev; [|discriminate].
  simpl. intros [= <-]. eexists. split; [reflexivity|].
  rewrite !printable_app, (encode_basestring_printable _ _ Ek). simpl.
  rewrite andb_true_r. destruct obj as [w|d]; simpl in Ev, Ho.
  - apply (encode_val_printable _ _ Ho Ev).
  - apply (encode_dict_printable _ _ Ho Ev).
Qed.

End Printable.


Section Escaping.
Import Json.

Lemma string_body_ok_plain c r :
  Ascii.eqb c backslash = false -> Ascii.eqb c dquote = false ->
  string_body_ok (String c r) = string_body_ok r.
Proof. intros H1 H2. simpl. now rewrite H1, H2. Qed.

Lemma hex_digit_plain k :
  (k < 16)%N ->
  Ascii.eqb (hex_digit k) backslash = false /\ Ascii.eqb (hex_digit k) dquote = false.
Proof.
  intros H. unfold hex_digit.
  destruct (k <? 10)%N eqn:E;
    [apply N.ltb_lt in E|apply N.ltb_ge in E];
    split; apply Ascii.eqb_neq; intros Heq;
    apply (f_equal N_of_ascii) in Heq;
    rewrite N_ascii_embedding in Heq by lia;
    vm_compute (N_of_ascii _) in Heq; lia.
Qed.

Lemma string_body_ok_u_escape n r :
  string_body_ok (u_escape n +:+ r) = string_body_ok r.
Proof.
  unfold u_escape. rewrite !sapp_cons, sapp_nil.
  change (string_body_ok (String backslash (String "u" ?s))) with (string_body_ok s).
  repeat (rewrite string_body_ok_plain;
          [|apply hex_digit_plain; apply N.mod_lt; discriminate
           |apply hex_digit_plain; apply N.mod_lt; discriminate]).
  reflexivity.
Qed.

Lemma string_body_ok_escape_char n r :
  string_body_ok (escape_char n +:+ r) = string_body_ok r.
Proof.
  unfold escape_char.
  repeat match goal with
         | |- string_body_ok ((if ?c then _ else _) +:+ _) = _ => destruct c eqn:?
         end; try reflexivity.
  - rewrite sapp_cons, sapp_nil.
    apply andb_prop in Heqb6 as [H1 H2].
    apply N.leb_le in H1. apply N.leb_le in H2.
    apply N.eqb_neq in Heqb, Heqb0.
    apply string_body_ok_plain; apply Ascii.eqb_neq; intros Heq;
      apply (f_equal N_of_ascii) in Heq;
      rewrite N_ascii_embedding in Heq by lia;
      vm_compute (N_of_ascii _) in Heq; lia.
  - apply string_body_ok_u_escape.
  - cbv zeta. now rewrite sapp_assoc, !string_body_ok_u_escape.
Qed.

(** In what the encoder writes for a string, every quote and every
    backslash is part of an escape. *)
Lemma string_body_ok_escape_all cs : string_body_ok (escape_all cs) = true.
Proof.
  induction cs as [|c cs IH]; [reflexivity|].
  simpl escape_all. now rewrite string_body_ok_escape_char.
Qed.

End Escaping.

Section Whitespace.
Import PyStr.

Lemma lstrip_spaces pre s :
  all_space pre = true -> lstrip (pre +:+ s) = lstrip s.
Proof.
  induction pre as [|c pre IH]; [reflexivity|].
  simpl all_space. intros H. apply andb_prop in H as [Hc Hp].
  rewrite sapp_cons. simpl lstrip. rewrite Hc. auto.
Qed.

Lemma rstrip_all_space s : all_space s = true -> rstrip s = EmptyString.
Proof.
  induction s as [|c s IH]; [reflexivity|].
  simpl all_space. intros H. apply andb_prop in H as [Hc Hs].
  simpl rstrip. now rewrite (IH Hs), Hc.
Qed.

Lemma rstrip_monitor post :
  all_space post = true -> rstrip ("monitor" +:+ post) = "monitor".
Proof.
  intros H. rewrite !sapp_cons, sapp_nil.
  simpl rstrip. now rewrite (rstrip_all_space post H).
Qed.

Lemma strip_monitor pre post :
  all_space pre = true -> all_space post = true ->
  strip (pre +:+ "monitor" +:+ post) = "monitor".
Proof.
  intros Hpre Hpost. unfold strip. rewrite (lstrip_spaces pre _ Hpre).
  rewrite !sapp_cons, sapp_nil. simpl lstrip.
  change (String "m" (String "o" (String "n" (String "i" (String "t"
            (String "o" (String "r" post)))))))
    with ("monitor" +:+ post).
  now apply rstrip_monitor.
Qed.

End Whitespace.

Section Extras2.
Variable de : string -> pyobj -> string.

Lemma non_log_lookup_city self addr rq sc fc :
  non_log (events (lookup_city de self addr rq sc fc)) =
  adds rq 1 ++ calls self addr ++
  match city_outcome self addr with
  | Return None => adds fc 1
  | Return (Some d) =>
      adds sc 1 ++
      match reply_line de "success" (Dict (<["addr" := PyStr addr]> d)) with
      | Return _ => []
      | Raise _ => adds fc 1
      end
  | Raise e => if is_exception e then adds fc 1 else []
  end.
Proof.
  destruct (events_lookup_city de self addr rq sc fc) as (L1 & L2 & Q1 & Q2 & ->).
  rewrite !non_log_app, non_log_adds, non_log_calls. do 2 f_equal.
  destruct (city_outcome self addr) as [[d|]|e]; [| |destruct (is_exception e)];
    rewrite ?non_log_app, ?non_log_adds, ?(quiet_non_log _ Q1), ?app_nil_r;
    try reflexivity.
  f_equal. destruct (reply_line de "success" _); [reflexivity|].
  now rewrite non_log_app, non_log_adds, (quiet_non_log _ Q2), app_nil_r.
Qed.

Lemma non_log_checkConnection self :
  non_log (events (checkConnection self)) =
  match geoip self with Some _ => [CountryCodeCall "mozilla.org"] | None => [] end.
Proof.
  rewrite events_checkConnection_full.
  destruct (geoip self) as [g|]; [|reflexivity].
  unfold non_log. simpl. destruct (country_code g "mozilla.org") as [cc|e];
    [reflexivity|].
  destruct (is_exception e); [|reflexivity]. now destruct (py_str e).
Qed.

(** X9.  The [DEBUG] setting changes the log and nothing else: the outcome of a
    run, its metrics and its backend calls are the same with and without
    it. *)
Theorem debug_only_logs statsd self line b :
  result (process de statsd (with_debug b self) line)
  = result (process de statsd self line)
  /\ non_log (events (process de statsd (with_debug b self) line))
     = non_log (events (process de statsd self line)).
Proof.
  split.
  - rewrite !(result_process de statsd _ line rq0 sc0 fc0).
    destruct (handle_by_line de line)
      as [[_ H]|[(_ & _ & H)|[(cmd & rest & _ & _ & _ & _ & H)
                             |(cmd & rest & _ & _ & _ & _ & H)]]];
      rewrite !H.
    + now rewrite !result_checkConnection.
    + now rewrite !result_mmap, !result_error.
    + now rewrite !result_lookup_city.
    + now rewrite !result_mmap, !result_error.
  - assert (Hmid : forall rq sc fc,
      non_log (events (handle de (with_debug b self) line rq sc fc))
      = non_log (events (handle de self line rq sc fc))).
    { intros. destruct (handle_by_line de line)
        as [[_ H]|[(_ & _ & H)|[(cmd & rest & _ & _ & _ & _ & H)
                               |(cmd & rest & _ & _ & _ & _ & H)]]];
        rewrite !H.
      + now rewrite !non_log_checkConnection.
      + now rewrite !events_mmap, !(quiet_non_log _ (quiet_error de _ _)).
      + now rewrite !non_log_lookup_city.
      + now rewrite !events_mmap, !(quiet_non_log _ (quiet_error de _ _)). }
    destruct statsd.
    + rewrite !process_sink. unfold events at 1 3. cbn [fst].
      change (non_log (TimerStart "GeoIP" :: ?l)) with (TimerStart "GeoIP" :: non_log l).
      now rewrite !non_log_app, Hmid.
    + rewrite !process_nosink. apply Hmid.
Qed.

(** X10.  Without [DEBUG] a line other than monitor writes nothing to the
    log. *)
Theorem no_debug_no_log statsd self line :
  config_DEBUG self = false ->
  PyStr.strip line <> "monitor" ->
  List.filter is_log (events (process de statsd self line)) = [].
Proof.
  intros Hd Hm.
  assert (Hadds : forall c k, List.filter is_log (adds c k) = []) by now intros [].
  assert (Hcalls : forall a, List.filter is_log (calls self a) = []).
  { intros. unfold calls. now destruct (geoip self). }
  destruct (events_process de statsd self line) as (rq & sc & fc & -> & _).
  rewrite !List.filter_app.
  assert (Hmid : List.filter is_log (events (handle de self line rq sc fc)) = []).
  { destruct (handle_by_line de line)
      as [[Hm' _]|[(_ & _ & H)|[(cmd & rest & _ & _ & _ & _ & H)
                               |(cmd & rest & _ & _ & _ & _ & H)]]];
      [contradiction| | |]; rewrite H.
    - now rewrite events_mmap, events_error_nodebug.
    - rewrite events_lookup_city_exact, !List.filter_app, Hadds, Hcalls. simpl app.
      destruct (city_outcome self _) as [[d|]|e]; [| |destruct (is_exception e)];
        rewrite ?List.filter_app, ?Hadds, ?events_error_nodebug,
          ?events_return_nodebug, ?clause_log_nodebug by assumption;
        try reflexivity.
      simpl. destruct (reply_line de "success" _); [reflexivity|].
      now rewrite List.filter_app, Hadds, clause_log_nodebug.
    - now rewrite events_mmap, events_error_nodebug. }
  rewrite Hmid. now destruct statsd.
Qed.

(** X11.  How an exception leaves [process], for every line, backend and
    configuration.  On the monitor line: the country lookup raised, and the
    exception is one that [except Exception] does not catch, or [str]
    raised on it inside the [except] clause.  On a GET request: the city
    lookup raised, or the success reply could not be written, and that
    exception is not caught, or [str] raised on it inside the [except]
    clause, or [json.dumps] raised on the Unknown Exception reply inside
    the clause.  Nothing else raises: the validation failures and the lookups
    that find nothing always return. *)
Theorem process_raises_only_from_handler statsd self line x :
  result (process de statsd self line) = Raise x <->
  (PyStr.strip line = "monitor" /\
   exists e,
     country_outcome self "mozilla.org" = Raise e /\
     ((is_exception e = false /\ x = e)
      \/ (is_exception e = true /\ py_str e = Raise x)))
  \/ (exists cmd rest e,
        line = request cmd rest /\ PyStr.contains " " cmd = false /\
        PyStr.upper cmd = "GET" /\
        (city_outcome self (sanitize (field1 rest)) = Raise e
         \/ exists d,
              city_outcome self (sanitize (field1 rest)) = Return (Some d) /\
              reply_line de "success"
                (Dict (<["addr" := PyStr (sanitize (field1 rest))]> d)) = Raise e) /\
        ((is_exception e = false /\ x = e)
         \/ (is_exception e = true /\ py_str e = Raise x)
         \/ (is_exception e = true /\
             exists msg, py_str e = Return msg /\
               reply_line de "error" (Val (PyStr (msg_unknown_exception msg)))
               = Raise x))).
Proof.
  split.
  - rewrite (result_process de statsd self line rq0 sc0 fc0).
    destruct (handle_by_line de line)
      as [[Hm H]|[(_ & _ & H)|[(cmd & rest & _ & -> & Hc & Hu & H)
                              |(cmd & rest & _ & _ & _ & _ & H)]]];
      rewrite H.
    + rewrite result_checkConnection. intros Hx. left. split; [exact Hm|].
      destruct (country_outcome self "mozilla.org") as [cc|e].
      { destruct (is_US cc); discriminate. }
      exists e. split; [reflexivity|].
      destruct (is_exception e).
      * destruct (py_str e) as [msg|e']; [discriminate|].
        injection Hx as <-. right. now split.
      * injection Hx as <-. left. now split.
    + rewrite result_mmap, result_error, reply_invalid_request. discriminate.
    + rewrite result_lookup_city. unfold lookup_result.
      destruct (city_outcome self _) as [[d|]|e] eqn:Hcity.
      * destruct (reply_line de "success" _) as [r|e] eqn:Hs; [discriminate|].
        intros Hx. apply recover_raise_cases in Hx.
        right. exists cmd, rest, e. repeat split; auto. right. eauto.
      * rewrite reply_no_information. discriminate.
      * intros Hx. apply recover_raise_cases in Hx.
        right. exists cmd, rest, e. repeat split; auto.
    + rewrite result_mmap, result_error, reply_invalid_command. discriminate.
  - intros [(Hm & e & He & Hx)|(cmd & rest & e & -> & Hc & Hu & Hsrc & Hx)].
    + rewrite (process_monitor_reply de statsd self line Hm), He.
      destruct Hx as [[-> ->]|[-> ->]]; reflexivity.
    + rewrite (result_process de statsd self _ rq0 sc0 fc0).
      rewrite (handle_request de self cmd rest _ _ _ Hc Hu), result_lookup_city.
      unfold lookup_result.
      destruct Hsrc as [->|(d & -> & ->)]; now apply recover_raise_cases.
Qed.

Lemma reply_error_shape m r :
  reply_line de "error" (Val (PyStr m)) = Return r ->
  exists cs, Json.code_points m = Some cs /\ r = error_line (Json.escape_all cs).
Proof.
  unfold reply_line, JsonDumps.dumps1, JsonDumps.encode, JsonDumps.encode_val,
    Json.encode_basestring_ascii.
  change (Json.code_points "error") with (Some (Json.bytes_of "error")).
  destruct (Json.code_points m) as [cs|]; [|discriminate].
  simpl mbind. intros [= <-]. exists cs. split; [reflexivity|].
  change (Json.escape_all (Json.bytes_of "error")) with "error".
  unfold error_line, Json.quote, dq. norm_str. reflexivity.
Qed.

(** X12.  Every reply to a line other than monitor is a JSON object with one
    key, followed by a line feed.  The key is error, and in the text under
    it every quote and backslash is escaped, so that no message can close
    the string it is written in; or the key is success, the line is a GET
    request for which the lookup returned a mapping, and the value is what
    [json.dumps] writes for that mapping with the sanitized address put
    under addr. *)
Theorem reply_is_one_key_object statsd self line r :
  PyStr.strip line <> "monitor" ->
  result (process de statsd self line) = Return r ->
  exists s, r = Some s /\
    ((exists body, s = error_line body /\ string_body_ok body = true)
     \/ (exists cmd rest d v,
           line = request cmd rest /\ PyStr.contains " " cmd = false /\
           PyStr.upper cmd = "GET" /\
           city_outcome self (sanitize (field1 rest)) = Return (Some d) /\
           JsonDumps.encode (Dict (<["addr" := PyStr (sanitize (field1 rest))]> d))
           = Some v /\
           s = success_line v)).
Proof.
  intros Hm. rewrite (result_process de statsd self line rq0 sc0 fc0).
  assert (Hline : forall m,
    match reply_line de "error" (Val (PyStr m)) with
    | Return r0 => Return (Some r0)
    | Raise e' => Raise e'
    end = Return r ->
    exists s, r = Some s /\
      exists body, s = error_line body /\ string_body_ok body = true).
  { intros m. destruct (reply_line de "error" _) as [s|] eqn:E; [|discriminate].
    intros [= <-]. apply reply_error_shape in E as (cs & _ & ->).
    exists (error_line (Json.escape_all cs)). split; [reflexivity|].
    exists (Json.escape_all cs). split; [reflexivity|apply string_body_ok_escape_all]. }
  assert (Herr : forall m, result (mmap Some (_error de self m)) = Return r ->
    exists s, r = Some s /\
      exists body, s = error_line body /\ string_body_ok body = true).
  { intros m. rewrite result_mmap, result_error. apply Hline. }
  assert (Hrec : forall e, recover de (Raise e) = Return r ->
    exists s, r = Some s /\
      exists body, s = error_line body /\ string_body_ok body = true).
  { intros e. unfold recover, handled.
    destruct (is_exception e); [|discriminate].
    destruct (py_str e) as [msg|e']; [|discriminate]. apply Hline. }
  destruct (handle_by_line de line)
    as [[Hm' _]|[(_ & _ & H)|[(cmd & rest & _ & -> & Hc & Hu & H)
                             |(cmd & rest & _ & _ & _ & _ & H)]]];
    [contradiction| | |]; rewrite H.
  - intros Hr. destruct (Herr _ Hr) as (s & -> & Hs). eauto.
  - rewrite result_lookup_city. unfold lookup_result.
    destruct (city_outcome self _) as [[d|]|e] eqn:Hcity.
    + destruct (reply_line de "success" _) as [s|e] eqn:E.
      * intros [= <-]. apply reply_success_shape in E as (v & Hv & ->).
        exists (success_line v). split; [reflexivity|]. right.
        exists cmd, rest, d, v. repeat split; auto.
      * intros Hr. destruct (Hrec _ Hr) as (s & -> & Hs). eauto.
    + rewrite reply_no_information. intros [= <-].
      exists line_no_information. split; [reflexivity|]. left.
      exists "No information for site". split; reflexivity.
    + intros Hr. destruct (Hrec _ Hr) as (s & -> & Hs). eauto.
  - intros Hr. destruct (Herr _ Hr) as (s & -> & Hs). eauto.
Qed.

Lemma process_get statsd self cmd rest :
  PyStr.contains " " cmd = false ->
  PyStr.upper cmd = "GET" ->
  process de statsd self (request cmd rest)
  = if statsd
    then (TimerStart "GeoIP"
            :: events (lookup_city de self (sanitize (field1 rest)) rq0 sc0 fc0)
            ++ [TimerStop "GeoIP" "Request"],
          result (lookup_city de self (sanitize (field1 rest)) rq0 sc0 fc0))
    else lookup_city de self (sanitize (field1 rest)) (Local 0) (Local 0) (Local 0).
Proof.
  intros Hc Hu. destruct statsd.
  - now rewrite process_sink, (handle_request de self cmd rest _ _ _ Hc Hu).
  - now rewrite process_nosink, (handle_request de self cmd rest _ _ _ Hc Hu).
Qed.

(** X4.  A GET request is served by its sanitized address alone: two requests
    with the same sanitized address give the same run, reply and events,
    whatever the letter case of the command, the whitespace and slashes
    around the address, and the text after the second space. *)
Theorem same_address_same_run statsd self cmd rest cmd' rest' :
  PyStr.contains " " cmd = false -> PyStr.upper cmd = "GET" ->
  PyStr.contains " " cmd' = false -> PyStr.upper cmd' = "GET" ->
  sanitize (field1 rest) = sanitize (field1 rest') ->
  process de statsd self (request cmd rest) = process de statsd self (request cmd' rest').
Proof.
  intros Hc Hu Hc' Hu' E.
  now rewrite (process_get statsd self cmd rest Hc Hu),
    (process_get statsd self cmd' rest' Hc' Hu'), E.
Qed.

(** X5.  What follows the second space of a GET request is ignored. *)
Theorem trailing_text_ignored statsd self cmd seg tail :
  PyStr.contains " " cmd = false -> PyStr.upper cmd = "GET" ->
  PyStr.contains " " seg = false ->
  process de statsd self (request cmd (seg +:+ " " +:+ tail))
  = process de statsd self (request cmd seg).
Proof.
  intros Hc Hu Hs. destruct (field1_segment seg tail Hs) as [E1 E2].
  now rewrite (process_get statsd self cmd _ Hc Hu),
    (process_get statsd self cmd seg Hc Hu), E1, E2.
Qed.


(** X15.  The monitor token may have any whitespace around it, spaces too, which
    on any other line would start a request: the line still goes to the
    health check and counts nothing. *)
Theorem monitor_tolerates_whitespace statsd self pre post :
  all_space pre = true -> all_space post = true ->
  result (process de statsd self (pre +:+ "monitor" +:+ post))
  = result (checkConnection self)
  /\ counter_adds (events (process de statsd self (pre +:+ "monitor" +:+ post))) = []
  /\ List.filter is_call (events (process de statsd self (pre +:+ "monitor" +:+ post)))
     = List.filter is_call (events (checkConnection self)).
Proof.
  intros Hpre Hpost. pose proof (strip_monitor pre post Hpre Hpost) as Hm.
  assert (H : forall rq sc fc,
    handle de self (pre +:+ "monitor" +:+ post) rq sc fc = checkConnection self).
  { intros. unfold handle. now rewrite Hm. }
  split; [|split].
  - now rewrite (result_process de statsd self _ rq0 sc0 fc0), H.
  - destruct (events_process de statsd self (pre +:+ "monitor" +:+ post))
      as (rq & sc & fc & -> & _).
    rewrite H, !counter_adds_app, (proj1 (events_checkConnection self)).
    now destruct statsd.
  - destruct (calls_process de statsd self (pre +:+ "monitor" +:+ post))
      as (rq & sc & fc & ->).
    now rewrite H.
Qed.

(** X2.  What the health check answers to a monitor line, by what the country
    lookup of mozilla.org does.  The 200 line is the answer exactly when the
    lookup returns the code US.  The 500 line is the answer exactly when the
    lookup raises (a missing handle included) an exception that
    [except Exception] catches and whose [str] returns, and the failure is
    then logged with that message.  The run raises exactly when the lookup
    raises an exception that is not caught, or one on which [str] raises
    inside the [except] clause. *)
Theorem health_check_answers statsd self line :
  PyStr.strip line = "monitor" ->
  (result (process de statsd self line) = Return (Some ("200 OK" +:+ nl))
   <-> country_outcome self "mozilla.org" = Return (Some "US"))
  /\ (result (process de statsd self line) = Return (Some ("500 Error" +:+ nl))
      <-> exists e msg,
            country_outcome self "mozilla.org" = Raise e /\
            is_exception e = true /\ py_str e = Return msg)
  /\ (forall e msg,
        country_outcome self "mozilla.org" = Raise e ->
        is_exception e = true -> py_str e = Return msg ->
        In (LogError ("Failed Health Check: " +:+ msg))
           (events (process de statsd self line)))
  /\ (forall x,
        result (process de statsd self line) = Raise x
        <-> exists e,
              country_outcome self "mozilla.org" = Raise e /\
              ((is_exception e = false /\ x = e)
               \/ (is_exception e = true /\ py_str e = Raise x))).
Proof.
  intros Hm.
  assert (H : forall rq sc fc, handle de self line rq sc fc = checkConnection self).
  { intros. unfold handle. now rewrite Hm. }
  rewrite (result_process de statsd self line rq0 sc0 fc0), H, result_checkConnection.
  split; [|split; [|split]].
  - destruct (country_outcome self "mozilla.org") as [[cc|]|e].
    + simpl. destruct (String.eqb_spec cc "US") as [->|Hcc].
      * split; reflexivity.
      * split; [discriminate|]. intros [= ->]. contradiction.
    + split; discriminate.
    + destruct (is_exception e); [destruct (py_str e)|]; split; discriminate.
  - destruct (country_outcome self "mozilla.org") as [cc|e].
    + split; [|intros (e & msg & He & _); discriminate He].
      destruct (is_US cc); discriminate.
    + destruct (is_exception e) eqn:Hexc.
      * destruct (py_str e) as [msg|e'] eqn:Hstr.
        -- split; [eauto|reflexivity].
        -- split; [discriminate|].
           intros (e0 & msg & [= <-] & _ & Hs). rewrite Hstr in Hs. discriminate Hs.
      * split; [discriminate|].
        intros (e0 & msg & [= <-] & He & _). rewrite Hexc in He. discriminate He.
  - intros e msg He Hexc Hstr.
    destruct (events_process de statsd self line) as (rq & sc & fc & -> & _).
    rewrite H, events_checkConnection_full.
    apply in_or_app. right. apply in_or_app. left.
    revert He. unfold country_outcome.
    destruct (geoip self) as [g|].
    + intros ->. rewrite Hexc, Hstr. right. now left.
    + intros [= <-]. injection Hstr as <-. now left.
  - intros x. destruct (country_outcome self "mozilla.org") as [cc|e].
    + split; [|intros (e & He & _); discriminate He].
      destruct (is_US cc); discriminate.
    + destruct (is_exception e) eqn:Hexc.
      * destruct (py_str e) as [msg|e'] eqn:Hstr.
        -- split; [discriminate|].
           intros (e0 & [= <-] & [[He _]|[_ Hs]]).
           ++ rewrite Hexc in He. discriminate He.
           ++ rewrite Hstr in Hs. discriminate Hs.
        -- split.
           ++ intros [= <-]. exists e. split; [reflexivity|]. right. now split.
           ++ intros (e0 & [= <-] & [[He _]|[_ Hs]]).
              ** rewrite Hexc in He. discriminate He.
              ** rewrite Hstr in Hs. now injection Hs as <-.
      * split.
        -- intros [= <-]. exists e. split; [reflexivity|]. left. now split.
        -- intros (e0 & [= <-] & [[_ ->]|[He _]]); [reflexivity|].
           rewrite Hexc in He. discriminate He.
Qed.

End Extras2.

Section Extras3.
Variable de : string -> pyobj -> string.

(** X13.  Every line [process] returns is one line: printable ASCII, without a
    line feed, and then one line feed; whatever bytes the request, the
    exception message or the attributes hold.  (The text written for a float
    is taken to be printable, as a [repr] is.) *)
Theorem replies_are_single_lines statsd self line r :
  (forall a d, city_outcome self a = Return (Some d) ->
     map_Forall (fun _ v => val_printable v = true) d) ->
  result (process de statsd self line) = Return (Some r) ->
  exists t, r = t +:+ nl /\ printable t = true
            /\ PyStr.contains "010"%char t = false.
Proof.
  intros Hback Hres.
  enough (exists t, r = t +:+ nl /\ printable t = true) as (t & -> & Ht).
  { exists t. repeat split; auto. now apply printable_no_line_feed. }
  revert Hres. rewrite (result_process de statsd self line rq0 sc0 fc0).
  assert (Herr : forall m,
    match reply_line de "error" (Val (PyStr m)) with
    | Return a => Return (Some a)
    | Raise e => Raise e
    end = Return (Some r) ->
    exists t, r = t +:+ nl /\ printable t = true).
  { intros m. destruct (reply_line de "error" _) as [s|e] eqn:E; [|discriminate].
    intros [= <-]. now apply (reply_line_printable de "error" (Val (PyStr m))). }
  destruct (handle_by_line de line)
    as [[_ H]|[(_ & _ & H)|[(cmd & rest & _ & _ & _ & _ & H)
                           |(cmd & rest & _ & _ & _ & _ & H)]]];
    rewrite H.
  - rewrite result_checkConnection.
    destruct (country_outcome self "mozilla.org") as [cc|e].
    + destruct (is_US cc); [|discriminate]. intros [= <-]. now exists "200 OK".
    + destruct (is_exception e); [|discriminate].
      destruct (py_str e); [|discriminate].
      intros [= <-]. now exists "500 Error".
  - rewrite result_mmap, result_error. apply Herr.
  - rewrite result_lookup_city. unfold lookup_result.
    assert (Hrec : forall e, recover de (Raise e) = Return (Some r) ->
      exists t, r = t +:+ nl /\ printable t = true).
    { intros e. unfold recover, handled.
      destruct (is_exception e); [|discriminate].
      destruct (py_str e) as [msg|e']; [|discriminate]. apply Herr. }
    destruct (city_outcome self _) as [[d|]|e] eqn:Hcity.
    + destruct (reply_line de "success" _) as [s|e] eqn:E; [|apply Hrec].
      intros [= <-]. apply (reply_line_printable de "success" _ _) in E; [exact E|].
      simpl. apply map_Forall_insert_2; [reflexivity|]. exact (Hback _ _ Hcity).
    + rewrite reply_no_information. intros [= <-].
      exists ("{" +:+ dq +:+ "error" +:+ dq +:+ ": " +:+ dq
              +:+ "No information for site" +:+ dq +:+ "}").
      split; reflexivity.
    + apply Hrec.
  - rewrite result_mmap, result_error. apply Herr.
Qed.

End Extras3.

(** ** Concrete runs for the further properties *)

(** X2 on concrete runs. *)
Lemma health_check_answers_witness :
  (PyStr.strip ("monitor" +:+ nl) = "monitor"
   /\ country_outcome Stub.server "mozilla.org" = Return (Some "US")
   /\ country_outcome Stub.server_down "mozilla.org"
      = Raise (Exc "GeoServer instance has no attribute 'geoip'")
   /\ country_outcome Faults.server_unicode "mozilla.org"
      = Raise (ExcNoStr Faults.encode_error)
   /\ country_outcome Faults.server_interrupted "mozilla.org"
      = Raise (BaseExc "KeyboardInterrupt"))
  /\ result (process Stub.dumps_error true Stub.server ("monitor" +:+ nl))
     = Return (Some ("200 OK" +:+ nl))
  /\ result (process Stub.dumps_error true Stub.server_down ("monitor" +:+ nl))
     = Return (Some ("500 Error" +:+ nl))
  /\ result (process Stub.dumps_error true Faults.server_unicode ("monitor" +:+ nl))
     = Raise Faults.encode_error
  /\ result (process Stub.dumps_error true Faults.server_interrupted ("monitor" +:+ nl))
     = Raise (BaseExc "KeyboardInterrupt").
Proof.
  split; [repeat split|]. split; [|split; [|split]].
  - apply (proj1 (health_check_answers Stub.dumps_error true Stub.server
                    ("monitor" +:+ nl) eq_refl)).
    reflexivity.
  - apply (proj1 (proj2 (health_check_answers Stub.dumps_error true Stub.server_down
                           ("monitor" +:+ nl) eq_refl))).
    exists (Exc "GeoServer instance has no attribute 'geoip'"),
      "GeoServer instance has no attribute 'geoip'".
    repeat split.
  - apply (proj2 (proj2 (proj2 (health_check_answers Stub.dumps_error true
                                  Faults.server_unicode ("monitor" +:+ nl) eq_refl)))).
    exists (ExcNoStr Faults.encode_error). split; [reflexivity|]. right. now split.
  - apply (proj2 (proj2 (proj2 (health_check_answers Stub.dumps_error true
                                  Faults.server_interrupted ("monitor" +:+ nl) eq_refl)))).
    exists (BaseExc "KeyboardInterrupt"). split; [reflexivity|]. left. now split.
Defined.

(** X3 on a concrete run. *)
Lemma validation_failure_silent_witness :
  (PyStr.strip "PUT 8.8.8.8" <> "monitor"
   /\ PyStr.contains " " "PUT" = false /\ PyStr.upper "PUT" <> "GET")
  /\ counter_adds (events (process Stub.dumps_error true Stub.server "PUT 8.8.8.8")) = []
  /\ List.filter is_call (events (process Stub.dumps_error true Stub.server "PUT 8.8.8.8"))
     = []
  /\ timer_calls (events (process Stub.dumps_error true Stub.server "PUT 8.8.8.8"))
     = [TimerStart "GeoIP"; TimerStop "GeoIP" "Request"].
Proof.
  split; [repeat split; (discriminate || reflexivity)|].
  apply (validation_failure_silent Stub.dumps_error true Stub.server "PUT 8.8.8.8").
  - discriminate.
  - right. exists "PUT", "8.8.8.8". repeat split; (discriminate || reflexivity).
Defined.

(** X6 on a concrete run. *)
Lemma backend_address_clean_witness :
  In (CityCall "8.8.8.8")
     (events (process Stub.dumps_error false Stub.server "GET /8.8.8.8/"))
  /\ PyStr.contains " " "8.8.8.8" = false /\ PyStr.contains "/" "8.8.8.8" = false.
Proof.
  assert (H : In (CityCall "8.8.8.8")
                 (events (process Stub.dumps_error false Stub.server "GET /8.8.8.8/")))
    by (vm_compute; now left).
  split; [exact H|].
  exact (backend_address_clean Stub.dumps_error false Stub.server
           "GET /8.8.8.8/" "8.8.8.8" H).
Defined.

(** X7 on a concrete run. *)
Lemma one_backend_call_witness :
  length (List.filter is_call
            (events (process Stub.dumps_error true Stub.server ("GET 8.8.8.8" +:+ nl))))
  <= 1.
Proof.
  exact (proj1 (one_backend_call Stub.dumps_error true Stub.server
                  ("GET 8.8.8.8" +:+ nl))).
Defined.

(** X10 on a concrete run. *)
Lemma no_debug_no_log_witness :
  (config_DEBUG Stub.server = false /\ PyStr.strip "GET bad" <> "monitor")
  /\ List.filter is_log (events (process Stub.dumps_error true Stub.server "GET bad")) = [].
Proof.
  split; [split; [reflexivity|discriminate]|].
  apply (no_debug_no_log Stub.dumps_error true Stub.server "GET bad");
    [reflexivity|discriminate].
Defined.

(** X11 on concrete runs: [json.dumps] raises inside the clause; [str]
    raises inside the clause; the exception is not caught. *)
Lemma process_raises_only_from_handler_witness :
  result (process Stub.dumps_error true Stub.server "GET bad")
  = Raise (Exc "'utf8' codec can't decode byte 0xff in position 19: invalid start byte")
  /\ result (process Stub.dumps_error true Faults.server_unicode "GET 8.8.8.8")
     = Raise Faults.encode_error
  /\ result (process Stub.dumps_error true Faults.server_interrupted "GET 8.8.8.8")
     = Raise (BaseExc "KeyboardInterrupt").
Proof.
  split; [|split].
  - apply (proj2 (process_raises_only_from_handler Stub.dumps_error true Stub.server
                    "GET bad" _)).
    right. exists "GET", "bad", (Exc Stub.byte_ff).
    repeat split. left. reflexivity.
    right. right. split; [reflexivity|]. exists Stub.byte_ff. now split.
  - apply (proj2 (process_raises_only_from_handler Stub.dumps_error true
                    Faults.server_unicode "GET 8.8.8.8" _)).
    right. exists "GET", "8.8.8.8", (ExcNoStr Faults.encode_error).
    repeat split. left. reflexivity.
    right. left. now split.
  - apply (proj2 (process_raises_only_from_handler Stub.dumps_error true
                    Faults.server_interrupted "GET 8.8.8.8" _)).
    right. exists "GET", "8.8.8.8", (BaseExc "KeyboardInterrupt").
    repeat split. left. reflexivity.
    left. now split.
Defined.

(** X12 on a concrete run: a success reply. *)
Lemma reply_is_one_key_object_witness :
  exists r,
    (PyStr.strip "GET 8.8.8.8" <> "monitor"
     /\ result (process Stub.dumps_error true Stub.server "GET 8.8.8.8") = Return r)
    /\ exists s, r = Some s /\
         ((exists body, s = error_line body /\ string_body_ok body = true)
          \/ (exists cmd rest d v,
                "GET 8.8.8.8" = request cmd rest /\ PyStr.contains " " cmd = false /\
                PyStr.upper cmd = "GET" /\
                city_outcome Stub.server (sanitize (field1 rest)) = Return (Some d) /\
                JsonDumps.encode
                  (Dict (<["addr" := PyStr (sanitize (field1 rest))]> d)) = Some v /\
                s = success_line v)).
Proof.
  eexists. split; [split; [discriminate|reflexivity]|].
  apply (reply_is_one_key_object Stub.dumps_error true Stub.server "GET 8.8.8.8");
    [discriminate|reflexivity].
Defined.

(** X4 on a concrete run. *)
Lemma same_address_same_run_witness :
  (PyStr.contains " " "get" = false /\ PyStr.upper "get" = "GET"
   /\ PyStr.contains " " "GET" = false /\ PyStr.upper "GET" = "GET"
   /\ sanitize (field1 ("/8.8.8.8/ now" +:+ nl)) = sanitize (field1 "8.8.8.8"))
  /\ process Stub.dumps_error true Stub.server (request "get" ("/8.8.8.8/ now" +:+ nl))
     = process Stub.dumps_error true Stub.server (request "GET" "8.8.8.8").
Proof.
  split; [repeat split|].
  apply (same_address_same_run Stub.dumps_error true Stub.server); reflexivity.
Defined.

(** X5 on a concrete run. *)
Lemma trailing_text_ignored_witness :
  (PyStr.contains " " "GET" = false /\ PyStr.upper "GET" = "GET"
   /\ PyStr.contains " " "8.8.8.8" = false)
  /\ process Stub.dumps_error true Stub.server
       (request "GET" ("8.8.8.8" +:+ " " +:+ "HTTP/1.0"))
     = process Stub.dumps_error true Stub.server (request "GET" "8.8.8.8").
Proof.
  split; [repeat split|].
  apply (trailing_text_ignored Stub.dumps_error true Stub.server); reflexivity.
Defined.


Lemma stub_backend_printable a d :
  city_outcome Stub.server a = Return (Some d) ->
  map_Forall (fun _ v => val_printable v = true) d.
Proof.
  unfold city_outcome, Stub.server, Stub.backend. simpl.
  repeat match goal with
         | |- (if ?c then _ else _) = _ -> _ => destruct c
         end; intros [= <-].
  - unfold Stub.mountain_view.
    repeat apply map_Forall_insert_2; try reflexivity. apply map_Forall_empty.
  - now apply map_Forall_singleton.
Qed.

(** X13 on a concrete run. *)
Lemma replies_are_single_lines_witness :
  result (process Stub.dumps_error true Stub.server "GET boom")
  = Return (Some (line_unknown_exception (Json.bytes_of "lookup failed")))
  /\ exists t,
       line_unknown_exception (Json.bytes_of "lookup failed") = t +:+ nl
       /\ printable t = true /\ PyStr.contains "010"%char t = false.
Proof.
  split; [reflexivity|].
  apply (replies_are_single_lines Stub.dumps_error true Stub.server "GET boom").
  - exact stub_backend_printable.
  - reflexivity.
Defined.

(** X15 on a concrete run. *)
Lemma monitor_tolerates_whitespace_witness :
  (all_space " " = true /\ all_space (" " +:+ nl) = true)
  /\ result (process Stub.dumps_error true Stub.server
               (" " +:+ "monitor" +:+ " " +:+ nl))
     = result (checkConnection Stub.server).
Proof.
  split; [split; reflexivity|].
  apply (monitor_tolerates_whitespace Stub.dumps_error true Stub.server " " (" " +:+ nl));
    reflexivity.
Defined.
